(** * gomomo: a shallow embedding of the MTN Mobile Money client

    The development follows the Go sources of the package:
    - [formatPhoneNumber] (collection service helper), with the rune walk of
      [strings.Map] it relies on,
    - [Config], its options, [Validate] and [NewConfig],
    - [Client.DoRequest], the HTTP dispatcher,
    - [AuthService.GetAccessToken] with the sandbox provisioning calls,
    - the operations of the two services that take a phone number.

    Go strings are byte strings; they are modelled by [string], whose
    characters are the bytes.  Go's [int], [int64] and [time.Duration] are
    64-bit two's complement integers; they are modelled by [Z] with the
    wrap-around written out ([wrap64]). *)

From Stdlib Require Import ZArith Lia Bool Ascii String DecimalString.
From stdpp Require Import base strings list gmap.

Open Scope string_scope.
Open Scope Z_scope.

(** ** Phone numbers (collection.go, [formatPhoneNumber]) *)

Module Phone.

(** The value of a byte. *)
Definition byteOf (c : ascii) : Z := Z.of_nat (nat_of_ascii c).

(** The byte of value [b]. *)
Definition byte (b : Z) : ascii := ascii_of_nat (Z.to_nat b).

Definition RuneError : Z := 65533.

(** A continuation byte, [0x80 <= b <= 0xBF]. *)
Definition isContinuation (b : Z) : bool := (128 <=? b) && (b <=? 191).

(** The bounds [accept.lo] and [accept.hi] on the second byte of a sequence
    that starts with [b0]. *)
Definition acceptLo (b0 : Z) : Z :=
  if b0 =? 224 then 160 else if b0 =? 240 then 144 else 128.
Definition acceptHi (b0 : Z) : Z :=
  if b0 =? 237 then 159 else if b0 =? 244 then 143 else 191.

(** [utf8.DecodeRuneInString(s)]: the first rune of [s] and its width in
    bytes; an invalid byte is the rune [RuneError] of width 1.  The walk
    [for _, r := range s] decodes the same way. *)
Definition decodeRune (s : string) : Z * nat :=
  match s with
  | EmptyString => (RuneError, 0%nat)
  | String c0 s1 =>
      let b0 := byteOf c0 in
      if b0 <? 128 then (b0, 1%nat)
      else if (b0 <? 194) || (244 <? b0) then (RuneError, 1%nat)
      else
        match s1 with
        | EmptyString => (RuneError, 1%nat)
        | String c1 s2 =>
            let b1 := byteOf c1 in
            if (b1 <? acceptLo b0) || (acceptHi b0 <? b1) then (RuneError, 1%nat)
            else if b0 <? 224 then
              (Z.lor (Z.shiftl (Z.land b0 31) 6) (Z.land b1 63), 2%nat)
            else
              match s2 with
              | EmptyString => (RuneError, 1%nat)
              | String c2 s3 =>
                  let b2 := byteOf c2 in
                  if negb (isContinuation b2) then (RuneError, 1%nat)
                  else if b0 <? 240 then
                    (Z.lor (Z.lor (Z.shiftl (Z.land b0 15) 12)
                                  (Z.shiftl (Z.land b1 63) 6))
                           (Z.land b2 63), 3%nat)
                  else
                    match s3 with
                    | EmptyString => (RuneError, 1%nat)
                    | String c3 _ =>
                        let b3 := byteOf c3 in
                        if negb (isContinuation b3) then (RuneError, 1%nat)
                        else
                          (Z.lor (Z.lor (Z.lor (Z.shiftl (Z.land b0 7) 18)
                                               (Z.shiftl (Z.land b1 63) 12))
                                        (Z.shiftl (Z.land b2 63) 6))
                                 (Z.land b3 63), 4%nat)
                    end
              end
        end
  end.

Definition bytes (bs : list Z) : string := string_of_list_ascii (map byte bs).

(** [utf8.AppendRune(nil, r)] for [r >= 0]: the UTF-8 encoding of the rune,
    that of [RuneError] for a surrogate or a value out of range. *)
Definition encodeRune (r : Z) : string :=
  if r <=? 127 then bytes [r]
  else if r <=? 2047 then
    bytes [Z.lor 192 (Z.shiftr r 6); Z.lor 128 (Z.land r 63)]
  else if (1114111 <? r) || ((55296 <=? r) && (r <=? 57343)) then
    bytes [239; 191; 189]
  else if r <=? 65535 then
    bytes [Z.lor 224 (Z.shiftr r 12); Z.lor 128 (Z.land (Z.shiftr r 6) 63);
           Z.lor 128 (Z.land r 63)]
  else
    bytes [Z.lor 240 (Z.shiftr r 18); Z.lor 128 (Z.land (Z.shiftr r 12) 63);
           Z.lor 128 (Z.land (Z.shiftr r 6) 63); Z.lor 128 (Z.land r 63)].

(** The walk of [strings.Map] over the runes of a string.  [skip] counts
    the bytes still to pass that belong to the rune decoded last. *)
Fixpoint mapRunes (mapping : Z -> Z) (skip : nat) (s : string) : string :=
  match s with
  | EmptyString => EmptyString
  | String _ rest =>
      match skip with
      | S k => mapRunes mapping k rest
      | O =>
          let (r, width) := decodeRune s in
          let m := mapping r in
          (if 0 <=? m then encodeRune m else EmptyString)
          +:+ mapRunes mapping (width - 1) rest
      end
  end.

(** [strings.Map(mapping, s)]: each rune of [s] is replaced by its image,
    and dropped when the image is negative. *)
Definition strings_Map (mapping : Z -> Z) (s : string) : string :=
  mapRunes mapping 0 s.

(** The closure handed to [strings.Map] in [formatPhoneNumber]. *)
Definition digitOrDrop (r : Z) : Z :=
  if (48 <=? r) && (r <=? 57) then r else -1.

(** A byte that is an ASCII digit.  Bytes below 0x80 are always runes of
    their own, and every other rune is made of bytes of 0x80 and above: with
    the closure above, the walk of [strings.Map] keeps the ASCII digits
    among the bytes and nothing else (lemma [strings_Map_digits]).  The
    byte-wise filter [keepDigits] is what that lemma and the properties are
    stated with. *)
Definition isDigit (c : ascii) : bool :=
  (48 <=? byteOf c) && (byteOf c <=? 57).

(** The bytes of [phone] that are ASCII digits. *)
Fixpoint keepDigits (phone : string) : string :=
  match phone with
  | EmptyString => EmptyString
  | String c rest =>
      if isDigit c then String c (keepDigits rest) else keepDigits rest
  end.

(** The first [n] bytes of [s] (all of them, if there are fewer) are of
    value 0x80 and above. *)
Fixpoint highPrefix (n : nat) (s : string) : bool :=
  match n, s with
  | S k, String c rest => (128 <=? byteOf c) && highPrefix k rest
  | _, _ => true
  end.

(** [strings.HasPrefix(s, p)]: [s] is at least as long as [p] and its first
    [len(p)] bytes are those of [p]. *)
Fixpoint HasPrefix (s p : string) {struct p} : bool :=
  match p, s with
  | EmptyString, _ => true
  | String a p', String b s' => Ascii.eqb a b && HasPrefix s' p'
  | String _ _, EmptyString => false
  end.

Definition countryCode : string := "231".

Definition formatPhoneNumber (phone : string) : string :=
  let digitsOnly := strings_Map digitOrDrop phone in
  match digitsOnly with
  | String "0" tail =>
      (* len(digitsOnly) > 0 && digitsOnly[0] == '0' *)
      countryCode +:+ tail
  | _ =>
      if negb (HasPrefix digitsOnly countryCode)
      then countryCode +:+ digitsOnly
      else digitsOnly
  end.

(** Every character of the string is an ASCII digit. *)
Fixpoint allDigits (s : string) : bool :=
  match s with
  | EmptyString => true
  | String c rest => isDigit c && allDigits rest
  end.

(** The normalisation as the specification words it, step by step:
    strip the non-digits; a leading "0" is replaced by the country code;
    otherwise the country code is put in front unless it is there already. *)
Definition spec_normalize (phone : string) : string :=
  let d := keepDigits phone in
  if HasPrefix d "0" then countryCode +:+ String.substring 1 (String.length d - 1) d
  else if HasPrefix d countryCode then d
  else countryCode +:+ d.

End Phone.

(** ** Errors (errors.go and the [fmt.Errorf] call sites)

    A Go error built by [fmt.Errorf] without [%w] (or by [errors.New]) is
    its text; with [%w] it is the formatted text together with the wrapped
    cause. *)

Inductive error : Type :=
| errorString (text : string)
| wrapError (text : string) (cause : error).

(** [err.Error()] *)
Definition Error (e : error) : string :=
  match e with
  | errorString text => text
  | wrapError text _ => text
  end.

(** [errors.Unwrap(err)] *)
Definition Unwrap (e : error) : option error :=
  match e with
  | errorString _ => None
  | wrapError _ cause => Some cause
  end.

(** [fmt.Errorf(prefix + "%w", err)] *)
Definition Errorf_w (prefix : string) (err : error) : error :=
  wrapError (prefix +:+ Error err) err.

(** [WrapError(err, message)] is [fmt.Errorf("%s: %w", message, err)]. *)
Definition WrapError (err : error) (message : string) : error :=
  Errorf_w (message +:+ ": ") err.

(** [s == ""] *)
Definition isEmpty (s : string) : bool := String.eqb s "".

(** ** Configuration (config.go) *)

Module Cfg.

(** [EnvironmentType] is a string type: besides the two constants any other
    string is a value of it. *)
Definition EnvironmentType : Type := string.
Definition Sandbox : EnvironmentType := "sandbox".
Definition Production : EnvironmentType := "production".

Record Config : Type := mkConfig {
  SubscriptionKey : string;
  DisbursementKey : string;
  TargetEnvironment : string;
  CallbackHost : string;
  APIUser : string;
  APIKey : string;
  Environment : EnvironmentType;
  Currency : string;
  Host : string
}.

Definition setSubscriptionKey (v : string) (c : Config) : Config :=
  mkConfig v (DisbursementKey c) (TargetEnvironment c) (CallbackHost c)
    (APIUser c) (APIKey c) (Environment c) (Currency c) (Host c).
Definition setDisbursementKey (v : string) (c : Config) : Config :=
  mkConfig (SubscriptionKey c) v (TargetEnvironment c) (CallbackHost c)
    (APIUser c) (APIKey c) (Environment c) (Currency c) (Host c).
Definition setTargetEnvironment (v : string) (c : Config) : Config :=
  mkConfig (SubscriptionKey c) (DisbursementKey c) v (CallbackHost c)
    (APIUser c) (APIKey c) (Environment c) (Currency c) (Host c).
Definition setCallbackHost (v : string) (c : Config) : Config :=
  mkConfig (SubscriptionKey c) (DisbursementKey c) (TargetEnvironment c) v
    (APIUser c) (APIKey c) (Environment c) (Currency c) (Host c).
Definition setAPIUser (v : string) (c : Config) : Config :=
  mkConfig (SubscriptionKey c) (DisbursementKey c) (TargetEnvironment c)
    (CallbackHost c) v (APIKey c) (Environment c) (Currency c) (Host c).
Definition setAPIKey (v : string) (c : Config) : Config :=
  mkConfig (SubscriptionKey c) (DisbursementKey c) (TargetEnvironment c)
    (CallbackHost c) (APIUser c) v (Environment c) (Currency c) (Host c).
Definition setCurrency (v : string) (c : Config) : Config :=
  mkConfig (SubscriptionKey c) (DisbursementKey c) (TargetEnvironment c)
    (CallbackHost c) (APIUser c) (APIKey c) (Environment c) v (Host c).
Definition setHost (v : string) (c : Config) : Config :=
  mkConfig (SubscriptionKey c) (DisbursementKey c) (TargetEnvironment c)
    (CallbackHost c) (APIUser c) (APIKey c) (Environment c) (Currency c) v.

(** [type ConfigOption func(c)] with [c] a pointer to the [Config]: an option acts on the configuration
    under construction. *)
Definition ConfigOption : Type := Config -> Config.

Definition WithSubscriptionKey (key : string) : ConfigOption := setSubscriptionKey key.
Definition WithDisbursementKey (key : string) : ConfigOption := setDisbursementKey key.
Definition WithTargetEnvironment (env : string) : ConfigOption := setTargetEnvironment env.
Definition WithCallbackHost (host : string) : ConfigOption := setCallbackHost host.
Definition WithAPIUser (user : string) : ConfigOption := setAPIUser user.
Definition WithAPIKey (key : string) : ConfigOption := setAPIKey key.
Definition WithHost (host : string) : ConfigOption := setHost host.
Definition WithCurrency (currency : string) : ConfigOption := setCurrency currency.

(** [if v := os.Getenv(name); v != "" { set v }] *)
Definition fromVar (Getenv : string -> string) (name : string)
    (set : string -> Config -> Config) (c : Config) : Config :=
  let v := Getenv name in
  if negb (isEmpty v) then set v c else c.

(** [FromEnv()]; the process environment is the function [Getenv]. *)
Definition FromEnv (Getenv : string -> string) : ConfigOption := fun c =>
  let c := fromVar Getenv "MOMO_SUBSCRIPTION_KEY" setSubscriptionKey c in
  let c := fromVar Getenv "MOMO_DISBURSEMENT_KEY" setDisbursementKey c in
  let c := fromVar Getenv "MOMO_TARGET_ENVIRONMENT" setTargetEnvironment c in
  let c := fromVar Getenv "MOMO_CALLBACK_HOST" setCallbackHost c in
  let c := fromVar Getenv "MOMO_HOST" setHost c in
  let c := fromVar Getenv "MOMO_API_USER" setAPIUser c in
  let c := fromVar Getenv "MOMO_API_KEY" setAPIKey c in
  fromVar Getenv "MOMO_CURRENCY" setCurrency c.

(** [(c *Config) Validate() error].  The receiver is a pointer and the
    method writes the disbursement key through it, so the configuration
    after the call is returned next to the error ([None] is [nil]). *)
Definition Validate (c : Config) : Config * option error :=
  if isEmpty (SubscriptionKey c) then
    (c, Some (errorString "subscription key is required"))
  else if isEmpty (TargetEnvironment c) then
    (c, Some (errorString "target environment is required"))
  else if isEmpty (Host c) then
    (c, Some (errorString "host is required"))
  else if String.eqb (Environment c) Production
          && isEmpty (APIUser c) && isEmpty (APIKey c) then
    (c, Some (errorString "API user and key are required for production"))
  else
    let c := if isEmpty (DisbursementKey c)
             then setDisbursementKey (SubscriptionKey c) c else c in
    if isEmpty (Currency c) then
      (c, Some (errorString "currency is required"))
    else (c, None).

(** The configuration [NewConfig] starts from, before the options. *)
Definition defaults (environment : EnvironmentType) : Config :=
  let config := mkConfig "" "" "" "" "" "" environment "EUR" "" in
  if String.eqb environment Sandbox then
    setTargetEnvironment "sandbox" (setHost "sandbox.momodeveloper.mtn.com" config)
  else if String.eqb environment Production then
    setCurrency "" config
  else config.

(** [for _, opt := range opts { opt(config) }] *)
Definition applyOptions (opts : list ConfigOption) (config : Config) : Config :=
  fold_left (fun c opt => opt c) opts config.

(** [NewConfig(environment, opts...)] returns a [Config] pointer and an error:
    [(None, Some err)] is [(nil, err)], [(Some c, None)] is [(config, nil)]. *)
Definition NewConfig (environment : EnvironmentType) (opts : list ConfigOption)
    : option Config * option error :=
  let config := applyOptions opts (defaults environment) in
  match Validate config with
  | (_, Some err) => (None, Some err)
  | (config, None) => (Some config, None)
  end.

(** What the error text of [Validate] asks of a production configuration:
    an API user and an API key. *)
Definition hasUserAndKey (c : Config) : bool :=
  negb (isEmpty (APIUser c)) && negb (isEmpty (APIKey c)).

End Cfg.

(** ** Payloads and results (models.go) *)

Module Models.

(** [PartyIDType] is a string type with three constants. *)
Definition PartyIDType : Type := string.
Definition MSISDN : PartyIDType := "MSISDN".
Definition Email : PartyIDType := "EMAIL".
Definition Party : PartyIDType := "PARTY_CODE".

Record PartyInfo : Type := mkPartyInfo {
  PartyIdType : PartyIDType;
  PartyID : string
}.

Record RequestToPayPayload : Type := mkRequestToPayPayload {
  rtpAmount : string;
  rtpCurrency : string;
  rtpExternalID : string;
  Payer : PartyInfo;
  rtpPayerMessage : string;
  rtpPayeeNote : string
}.

Record TransferPayload : Type := mkTransferPayload {
  trAmount : string;
  trCurrency : string;
  trExternalID : string;
  Payee : PartyInfo;
  trPayerMessage : string;
  trPayeeNote : string
}.

Record AccountHolderInfo : Type := mkAccountHolderInfo {
  GivenName : string;
  FamilyName : string;
  Birthdate : string;
  Locale : string;
  Gender : string;
  Status : string
}.

End Models.

(** ** The world outside the package

    The package reads the clock ([time.Now]), draws identifiers
    ([uuid.New]) and sends HTTP requests ([http.Client.Do]).  A [World]
    holds the clock, the identifiers still to be drawn, the replies the
    network will give to the coming requests, in order, and the requests
    sent so far. *)

(** Instants and durations are counted in nanoseconds, as [time.Duration]
    does; an instant is the number of nanoseconds since the Unix epoch.
    [time.Time] ranges over far more than 64 bits of nanoseconds, so adding
    a duration to an instant does not wrap. *)
Definition Time : Type := Z.
Definition Duration : Type := Z.

Definition wrap64 (z : Z) : Z := (z + 2 ^ 63) mod 2 ^ 64 - 2 ^ 63.

Definition Second : Duration := 1000000000.

(** [time.Time{}], the zero value: 1 January of year 1, UTC. *)
Definition zeroTime : Time := - 62135596800 * Second.

(** [t.Add(d)] and [t.Before(u)] *)
Definition Add (t : Time) (d : Duration) : Time := t + d.
Definition Before (t u : Time) : bool := t <? u.

(** [resp.StatusCode] and the bytes of [resp.Body]. *)
Record Response : Type := mkResponse {
  StatusCode : Z;
  RespBody : string
}.

(** The [*http.Request] handed to the transport.  The header keys the
    package uses are in canonical MIME form already, so [Header.Set] is an
    insertion; [Query] is [url.Values] before [Encode]. *)
Record HTTPRequest : Type := mkHTTPRequest {
  HTTPMethod : string;
  URL : string;
  Header : gmap string string;
  Query : gmap string string;
  Payload : option string
}.

(** What [httpClient.Do] returns for one request and the time it took. *)
Record Reply : Type := mkReply {
  elapsed : N;
  answer : error + Response
}.

Record World : Type := mkWorld {
  clock : Time;
  replies : list Reply;
  sent : list HTTPRequest;
  uuids : list string
}.

(** Computations that act on the world. *)
Definition IO (A : Type) : Type := World -> A * World.

Definition ret {A} (a : A) : IO A := fun w => (a, w).

Definition bind {A B} (m : IO A) (k : A -> IO B) : IO B :=
  fun w => let (a, w') := m w in k a w'.

Notation "'let!' x ':=' m 'in' k" := (bind m (fun x => k))
  (at level 10, x name, m at level 200, k at level 200, only parsing).

(** [time.Now()] *)
Definition Now : IO Time := fun w => (clock w, w).

(** [uuid.New().String()] *)
Definition NewUUID : IO string := fun w =>
  match uuids w with
  | id :: rest => (id, mkWorld (clock w) (replies w) (sent w) rest)
  | [] => ("00000000-0000-4000-8000-000000000000", w)
  end.

(** [httpClient.Do(httpReq)].  With no reply left the transport fails, as
    it does when nothing answers. *)
Definition Do (r : HTTPRequest) : IO (error + Response) := fun w =>
  match replies w with
  | reply :: rest =>
      (answer reply,
       mkWorld (clock w + Z.of_N (elapsed reply)) rest (sent w ++ [r]) (uuids w))
  | [] =>
      (inl (errorString "connection refused"),
       mkWorld (clock w) [] (sent w ++ [r]) (uuids w))
  end.

(** ** The parts of Go's library the package calls

    [body] is the type of the values passed as [Request.Body]
    ([interface{}] in Go). *)
Class Runtime : Type := {
  body : Type;
  (** [json.Marshal] *)
  json_Marshal : body -> error + string;
  (** a [map[string]string] as a body *)
  bodyOfMap : gmap string string -> body;
  (** the error of [http.NewRequestWithContext(ctx, method, url, _)], if any *)
  http_NewRequest : string -> string -> option error;
  (** [base64.StdEncoding.EncodeToString] *)
  base64_EncodeToString : string -> string
}.

(** [json.NewDecoder(r).Decode(&v)] for a [v] of type [T], as a function of
    the bytes [r] delivers: the error, or the value stored in [v]. *)
Definition Decoder (T : Type) : Type := string -> error + T.

(** [io.EOF], which [Decode] returns when the input holds no value. *)
Definition io_EOF : error := errorString "EOF".

(** [fmt.Sprintf("%d", n)] *)
Definition itoa (n : Z) : string := NilZero.string_of_int (Z.to_int n).

(** ** The HTTP dispatcher (client.go) *)

Module Dispatch.
Section WithRuntime.
Context {rt : Runtime}.

Record Client : Type := mkClient {
  clientConfig : Cfg.Config
}.

Definition NewClient (config : Cfg.Config) : Client := mkClient config.

Record Request : Type := mkRequest {
  Method : string;
  Path : string;
  Body : option body;
  Headers : gmap string string;
  QueryParams : gmap string string
}.

Definition StatusNoContent : Z := 204.

(** The head of [DoRequest]: the body, if there is one, is marshalled; the
    outcome is the error of [json.Marshal], wrapped, or the bytes for the
    request ([None] for the nil reader). *)
Definition marshalBody (b : option body) : error + option string :=
  match b with
  | Some v =>
      match json_Marshal v with
      | inl err => inl (Errorf_w "error marshaling request body: " err)
      | inr bodyBytes => inr (Some bodyBytes)
      end
  | None => inr None
  end.

(** [fmt.Sprintf("https://%s%s", c.config.Host, req.Path)] *)
Definition requestURL (c : Client) (req : Request) : string :=
  "https://" +:+ Cfg.Host (clientConfig c) +:+ Path req.

(** [DoRequest(ctx, req, result)].  [result] is [None] for a nil pointer and
    the decoder of the pointed-to type otherwise.  The outcome is the
    returned error, or, when [nil] is returned, the value written through
    [result], if one was. *)
Definition DoRequest {T : Type} (c : Client) (req : Request)
    (result : option (Decoder T)) : IO (error + option T) :=
  match marshalBody (Body req) with
  | inl err => ret (inl err)
  | inr bodyReader =>
      let url := requestURL c req in
      match http_NewRequest (Method req) url with
      | Some err => ret (inl (Errorf_w "error creating HTTP request: " err))
      | None =>
          let header := Headers req ∪ {[ "Content-Type" := "application/json" ]} in
          let httpReq := mkHTTPRequest (Method req) url header (QueryParams req) bodyReader in
          let! r := Do httpReq in
          match r with
          | inl err => ret (inl (Errorf_w "error making HTTP request: " err))
          | inr resp =>
              if (StatusCode resp <? 200) || (300 <=? StatusCode resp) then
                ret (inl (errorString
                  ("API request failed with status code " +:+ itoa (StatusCode resp)
                   +:+ ": " +:+ RespBody resp)))
              else
                match result with
                | Some decode =>
                    if negb (StatusCode resp =? StatusNoContent) then
                      match decode (RespBody resp) with
                      | inl err => ret (inl (Errorf_w "error decoding response: " err))
                      | inr v => ret (inr (Some v))
                      end
                    else ret (inr None)
                | None => ret (inr None)
                end
          end
      end
  end.

(** [CreateBasicAuthHeader(apiUser, apiKey)] *)
Definition CreateBasicAuthHeader (apiUser apiKey : string) : string :=
  let auth := apiUser +:+ ":" +:+ apiKey in
  "Basic " +:+ base64_EncodeToString auth.

(** The condition under which the specification has the dispatcher decode:
    an output slot is given, the body is not empty, and the status is not
    "no content". *)
Definition spec_decodes {T : Type} (result : option (Decoder T)) (resp : Response) : bool :=
  match result with
  | Some _ => negb (isEmpty (RespBody resp)) && negb (StatusCode resp =? StatusNoContent)
  | None => false
  end.

End WithRuntime.
End Dispatch.

(** ** Authentication (auth.go) *)

Module Auth.
Import Dispatch.

Record TokenResponse : Type := mkTokenResponse {
  AccessToken : string;
  TokenType : string;
  ExpiresIn : Z
}.

(** The zero value a [var tokenResp TokenResponse] starts with. *)
Definition zeroTokenResponse : TokenResponse := mkTokenResponse "" "" 0.

(** The JSON decoders of the two result types of this file:
    [TokenResponse] and the anonymous struct with the one field [apiKey]. *)
Class Decoders : Type := {
  decodeTokenResponse : Decoder TokenResponse;
  decodeAPIKey : Decoder string
}.

Section WithRuntime.
Context {rt : Runtime} {dec : Decoders}.

(** The mutex of the service is taken on entry of [GetAccessToken] and
    released on return: calls on one service run one after the other, which
    is what a function from the state before to the state after says. *)
Record AuthService : Type := mkAuthService {
  client : Client;
  config : Cfg.Config;
  accessToken : string;
  tokenExpiry : Time
}.

Definition NewAuthService (client : Client) (config : Cfg.Config) : AuthService :=
  mkAuthService client config "" zeroTime.

(** A Go function returning [(string, error)] returns the error or, with a
    nil error, the string. *)
Definition CreateAPIUser (s : AuthService) : IO (error + string) :=
  if negb (String.eqb (Cfg.Environment (config s)) Cfg.Sandbox) then
    ret (inl (errorString "creating API users is only available in sandbox mode"))
  else
    let! apiUserID := NewUUID in
    let payload : gmap string string :=
      {[ "providerCallbackHost" := Cfg.CallbackHost (config s) ]} in
    let req := mkRequest "POST" "/v1_0/apiuser" (Some (bodyOfMap payload))
      (<[ "X-Reference-Id" := apiUserID ]>
        {[ "Ocp-Apim-Subscription-Key" := Cfg.SubscriptionKey (config s) ]}) ∅ in
    let! r := DoRequest (T := unit) (client s) req None in
    match r with
    | inl err => ret (inl (Errorf_w "failed to create API user: " err))
    | inr _ => ret (inr apiUserID)
    end.

Definition CreateAPIKey (s : AuthService) (apiUserID : string) : IO (error + string) :=
  if negb (String.eqb (Cfg.Environment (config s)) Cfg.Sandbox) then
    ret (inl (errorString "creating API keys is only available in sandbox mode"))
  else
    let req := mkRequest "POST" ("/v1_0/apiuser/" +:+ apiUserID +:+ "/apikey") None
      {[ "Ocp-Apim-Subscription-Key" := Cfg.SubscriptionKey (config s) ]} ∅ in
    let! r := DoRequest (client s) req (Some decodeAPIKey) in
    match r with
    | inl err => ret (inl (Errorf_w "failed to create API key: " err))
    | inr written => ret (inr (default "" written))
    end.

(** The sandbox branch of [GetAccessToken] is taken. *)
Definition provisions (c : Cfg.Config) : bool :=
  String.eqb (Cfg.Environment c) Cfg.Sandbox
  && (isEmpty (Cfg.APIUser c) || isEmpty (Cfg.APIKey c)).

(** The [switch product]: the token path and the subscription key, or
    nothing in the [default] case. *)
Definition productRoute (c : Cfg.Config) (product : string) : option (string * string) :=
  if String.eqb product "collection" then
    Some ("/collection/token/", Cfg.SubscriptionKey c)
  else if String.eqb product "disbursement" then
    Some ("/disbursement/token/", Cfg.DisbursementKey c)
  else None.

(** [time.Duration(expiresIn-60) * time.Second], in 64-bit arithmetic. *)
Definition renewalDelay (expiresIn : Z) : Duration :=
  wrap64 (wrap64 (expiresIn - 60) * Second).

(** The cache test at the head of [GetAccessToken]. *)
Definition cacheValid (s : AuthService) (now : Time) : bool :=
  negb (isEmpty (accessToken s)) && Before now (tokenExpiry s).

(** The API user and key [GetAccessToken] goes on with: those of the
    configuration, or, in the sandbox when one of them is not set, a user
    and a key created on the spot. *)
Definition credentials (s : AuthService) : IO (error + string * string) :=
  if provisions (config s) then
    let! u := CreateAPIUser s in
    match u with
    | inl err => ret (inl err)
    | inr apiUser =>
        let! k := CreateAPIKey s apiUser in
        match k with
        | inl err => ret (inl err)
        | inr apiKey => ret (inr (apiUser, apiKey))
        end
    end
  else ret (inr (Cfg.APIUser (config s), Cfg.APIKey (config s))).

(** The request of the token exchange. *)
Definition tokenRequest (tokenPath subscriptionKey apiUser apiKey : string) : Request :=
  mkRequest "POST" tokenPath None
    (<[ "Authorization" := CreateBasicAuthHeader apiUser apiKey ]>
      {[ "Ocp-Apim-Subscription-Key" := subscriptionKey ]}) ∅.

(** [GetAccessToken] past the cache test, from "Determine which API user
    and key to use" to the end: the returned error or token, and the
    service after the call. *)
Definition fetchToken (s : AuthService) (product : string)
    : IO ((error + string) * AuthService) :=
  let! creds := credentials s in
  match creds with
  | inl err => ret (inl err, s)
  | inr (apiUser, apiKey) =>
      match productRoute (config s) product with
      | None => ret (inl (errorString ("unknown product: " +:+ product)), s)
      | Some (tokenPath, subscriptionKey) =>
          let req := tokenRequest tokenPath subscriptionKey apiUser apiKey in
          let! r := DoRequest (client s) req (Some decodeTokenResponse) in
          match r with
          | inl err => ret (inl (Errorf_w "failed to fetch access token: " err), s)
          | inr written =>
              let tokenResp := default zeroTokenResponse written in
              let! stored := Now in
              let s' := mkAuthService (client s) (config s)
                          (AccessToken tokenResp)
                          (Add stored (renewalDelay (ExpiresIn tokenResp))) in
              ret (inr (accessToken s'), s')
          end
      end
  end.

(** [GetAccessToken(ctx, product)] *)
Definition GetAccessToken (s : AuthService) (product : string)
    : IO ((error + string) * AuthService) :=
  let! now := Now in
  if cacheValid s now then ret (inr (accessToken s), s)
  else fetchToken s product.

End WithRuntime.
End Auth.

(** ** The operations on phone numbers (collection.go, disbursement.go)

    Each service holds a pointer to the one [AuthService] of the client;
    here the authentication service is passed to the operation and returned
    by it. *)

Module Services.
Import Dispatch Auth Models.

(** What the two services take from Go's library besides [Runtime]:
    [float64] with [fmt.Sprintf("%.2f", amount)], the payload structs as
    bodies, and the JSON decoder of [AccountHolderInfo]. *)
Class ServiceRuntime {rt : Runtime} : Type := {
  float64 : Type;
  Sprintf_2f : float64 -> string;
  bodyOfRequestToPay : RequestToPayPayload -> body;
  bodyOfTransfer : TransferPayload -> body;
  decodeAccountHolderInfo : Decoder AccountHolderInfo
}.

Section WithRuntime.
Context {rt : Runtime} {dec : Decoders} {srt : ServiceRuntime}.

(** [RequestToPayOptions] and [TransferOptions] have the same fields. *)
Record Options : Type := mkOptions {
  IdempotencyKey : string;
  ExternalID : string;
  ReferenceID : string;
  OptCurrency : string;
  PayerMessage : string;
  PayeeNote : string
}.

(** [&RequestToPayOptions{}], used when [opts] is nil. *)
Definition zeroOptions : Options := mkOptions "" "" "" "" "" "".

Definition defaultIfEmpty (value defaultValue : string) : string :=
  if isEmpty value then defaultValue else value.

(** [id := given; if id == "" { id = uuid.New().String() }] *)
Definition orNewUUID (given : string) : IO string :=
  if isEmpty given then NewUUID else ret given.

Record CollectionService : Type := mkCollectionService {
  colClient : Client;
  colConfig : Cfg.Config
}.

Record DisbursementService : Type := mkDisbursementService {
  disClient : Client;
  disConfig : Cfg.Config
}.

(** The headers of a transaction request. *)
Definition transactionHeaders (token referenceID targetEnvironment key idempotencyKey : string)
    : gmap string string :=
  let headers : gmap string string :=
    <[ "Authorization" := "Bearer " +:+ token ]>
    (<[ "X-Reference-Id" := referenceID ]>
    (<[ "X-Target-Environment" := targetEnvironment ]>
    {[ "Ocp-Apim-Subscription-Key" := key ]})) in
  if negb (isEmpty idempotencyKey)
  then <[ "X-Idempotency-Key" := idempotencyKey ]> headers
  else headers.

(** The headers of a query. *)
Definition queryHeaders (token targetEnvironment key : string) : gmap string string :=
  <[ "Authorization" := "Bearer " +:+ token ]>
  (<[ "X-Target-Environment" := targetEnvironment ]>
  {[ "Ocp-Apim-Subscription-Key" := key ]}).

(** [(s *CollectionService) RequestToPay(ctx, phone, amount, opts)] *)
Definition RequestToPay (s : CollectionService) (auth : AuthService) (phone : string)
    (amount : float64) (opts : option Options) : IO ((error + string) * AuthService) :=
  let phone := Phone.formatPhoneNumber phone in
  let! t := GetAccessToken auth "collection" in
  match t with
  | (inl err, auth) => ret (inl (Errorf_w "error getting access token: " err), auth)
  | (inr token, auth) =>
      let opts := default zeroOptions opts in
      let! referenceID := orNewUUID (ReferenceID opts) in
      let! externalID := orNewUUID (ExternalID opts) in
      let currency :=
        if isEmpty (OptCurrency opts) then Cfg.Currency (colConfig s) else OptCurrency opts in
      let payload := mkRequestToPayPayload (Sprintf_2f amount) currency externalID
                       (mkPartyInfo MSISDN phone)
                       (defaultIfEmpty (PayerMessage opts) "Payment request")
                       (defaultIfEmpty (PayeeNote opts) "Thank you for your payment") in
      let headers := transactionHeaders token referenceID
                       (Cfg.TargetEnvironment (colConfig s))
                       (Cfg.SubscriptionKey (colConfig s)) (IdempotencyKey opts) in
      let req := mkRequest "POST" "/collection/v1_0/requesttopay"
                   (Some (bodyOfRequestToPay payload)) headers ∅ in
      let! r := DoRequest (T := unit) (colClient s) req None in
      match r with
      | inl err => ret (inl (Errorf_w "error making request-to-pay: " err), auth)
      | inr _ => ret (inr referenceID, auth)
      end
  end.

(** [(s *DisbursementService) Transfer(ctx, phone, amount, opts)] *)
Definition Transfer (s : DisbursementService) (auth : AuthService) (phone : string)
    (amount : float64) (opts : option Options) : IO ((error + string) * AuthService) :=
  let phone := Phone.formatPhoneNumber phone in
  let! t := GetAccessToken auth "disbursement" in
  match t with
  | (inl err, auth) => ret (inl (Errorf_w "error getting access token: " err), auth)
  | (inr token, auth) =>
      let opts := default zeroOptions opts in
      let! referenceID := orNewUUID (ReferenceID opts) in
      let! externalID := orNewUUID (ExternalID opts) in
      let currency :=
        if isEmpty (OptCurrency opts) then Cfg.Currency (disConfig s) else OptCurrency opts in
      let payload := mkTransferPayload (Sprintf_2f amount) currency externalID
                       (mkPartyInfo MSISDN phone)
                       (defaultIfEmpty (PayerMessage opts) "Disbursement payment")
                       (defaultIfEmpty (PayeeNote opts) "Funds received") in
      let headers := transactionHeaders token referenceID
                       (Cfg.TargetEnvironment (disConfig s))
                       (Cfg.DisbursementKey (disConfig s)) (IdempotencyKey opts) in
      let req := mkRequest "POST" "/disbursement/v1_0/transfer"
                   (Some (bodyOfTransfer payload)) headers ∅ in
      let! r := DoRequest (T := unit) (disClient s) req None in
      match r with
      | inl err => ret (inl (Errorf_w "error making transfer: " err), auth)
      | inr _ => ret (inr referenceID, auth)
      end
  end.

(** [GetAccountHolderInfo(ctx, phone)] of either service: [product] is
    "collection" or "disbursement" and [key] the subscription key of the
    service.  The result is the error or the decoded record (the zero
    record when nothing was decoded). *)
Definition accountHolderInfo (product : string) (c : Client) (config : Cfg.Config)
    (key : string) (auth : AuthService) (phone : string)
    : IO ((error + AccountHolderInfo) * AuthService) :=
  let phone := Phone.formatPhoneNumber phone in
  let! t := GetAccessToken auth product in
  match t with
  | (inl err, auth) => ret (inl (Errorf_w "error getting access token: " err), auth)
  | (inr token, auth) =>
      let req := mkRequest "GET"
                   ("/" +:+ product +:+ "/v1_0/accountholder/MSISDN/" +:+ phone
                    +:+ "/basicuserinfo")
                   None
                   (queryHeaders token (Cfg.TargetEnvironment config) key) ∅ in
      let! r := DoRequest c req (Some decodeAccountHolderInfo) in
      match r with
      | inl err => ret (inl (Errorf_w "error getting account holder info: " err), auth)
      | inr written => ret (inr (default (mkAccountHolderInfo "" "" "" "" "" "") written), auth)
      end
  end.

(** [(s *CollectionService) GetAccountHolderInfo(ctx, phone)] *)
Definition CollectionGetAccountHolderInfo (s : CollectionService) :=
  accountHolderInfo "collection" (colClient s) (colConfig s)
    (Cfg.SubscriptionKey (colConfig s)).

(** [(s *DisbursementService) GetAccountHolderInfo(ctx, phone)] *)
Definition DisbursementGetAccountHolderInfo (s : DisbursementService) :=
  accountHolderInfo "disbursement" (disClient s) (disConfig s)
    (Cfg.DisbursementKey (disConfig s)).

(** A string made of digits only that starts with the country code. *)
Definition normalized (id : string) : Prop :=
  Phone.allDigits id = true /\ Phone.HasPrefix id Phone.countryCode = true.

End WithRuntime.
End Services.

(** ** A test double of the library

    For running the model on concrete inputs: bodies are JSON texts already,
    every request can be built, and the decoders read the two documents the
    token and key endpoints answer with, in the one layout
    [{"access_token":"T","expires_in":3600}] and [{"apiKey":"K"}].  As
    [encoding/json] does, they report [io.EOF] on an empty body. *)

Module Double.

(** [s] without the prefix [p], if it starts with it. *)
Fixpoint stripPrefix (p s : string) : option string :=
  match p, s with
  | EmptyString, _ => Some s
  | String a p', String b s' => if Ascii.eqb a b then stripPrefix p' s' else None
  | String _ _, EmptyString => None
  end.

(** [s] cut at the first occurrence of [c]: what is before and after. *)
Fixpoint cut (c : ascii) (s : string) : option (string * string) :=
  match s with
  | EmptyString => None
  | String a s' =>
      if Ascii.eqb a c then Some (EmptyString, s')
      else match cut c s' with
           | Some (l, r) => Some (String a l, r)
           | None => None
           end
  end.

Definition syntaxError : error := errorString "invalid character in JSON text".

Definition quote : ascii := ascii_of_nat 34.
Definition q (s : string) : string := String quote (s +:+ String quote EmptyString).

Definition decodeToken : Decoder Auth.TokenResponse := fun b =>
  if isEmpty b then inl io_EOF
  else
    match stripPrefix ("{" +:+ q "access_token" +:+ ":" +:+ String quote EmptyString) b with
    | None => inl syntaxError
    | Some b1 =>
        match cut quote b1 with
        | None => inl syntaxError
        | Some (tok, b2) =>
            match stripPrefix ("," +:+ q "expires_in" +:+ ":") b2 with
            | None => inl syntaxError
            | Some b3 =>
                match cut "}" b3 with
                | None => inl syntaxError
                | Some (digits, _) =>
                    match NilZero.int_of_string digits with
                    | Some n => inr (Auth.mkTokenResponse tok "" (Z.of_int n))
                    | None => inl syntaxError
                    end
                end
            end
        end
    end.

Definition decodeKey : Decoder string := fun b =>
  if isEmpty b then inl io_EOF
  else
    match stripPrefix ("{" +:+ q "apiKey" +:+ ":" +:+ String quote EmptyString) b with
    | None => inl syntaxError
    | Some b1 =>
        match cut quote b1 with
        | Some (key, _) => inr key
        | None => inl syntaxError
        end
    end.

Definition tokenDocument (token : string) (expiresIn : Z) : string :=
  "{" +:+ q "access_token" +:+ ":" +:+ q token +:+ "," +:+ q "expires_in" +:+ ":"
  +:+ itoa expiresIn +:+ "}".

Definition keyDocument (key : string) : string :=
  "{" +:+ q "apiKey" +:+ ":" +:+ q key +:+ "}".

Definition runtime : Runtime := {|
  body := string;
  json_Marshal := fun b => inr b;
  bodyOfMap := fun m =>
    "{" +:+ String.concat "," (map (fun kv => q (fst kv) +:+ ":" +:+ q (snd kv)) (map_to_list m)) +:+ "}";
  http_NewRequest := fun _ _ => None;
  base64_EncodeToString := fun s => s
|}.

Definition renderRequestToPay (p : Models.RequestToPayPayload) : string :=
  "{" +:+ q "amount" +:+ ":" +:+ q (Models.rtpAmount p) +:+ ","
  +:+ q "payer" +:+ ":" +:+ q (Models.PartyID (Models.Payer p)) +:+ "}".

Definition renderTransfer (p : Models.TransferPayload) : string :=
  "{" +:+ q "amount" +:+ ":" +:+ q (Models.trAmount p) +:+ ","
  +:+ q "payee" +:+ ":" +:+ q (Models.PartyID (Models.Payee p)) +:+ "}".

Definition decodeHolder : Decoder Models.AccountHolderInfo := fun b =>
  if isEmpty b then inl io_EOF
  else inr (Models.mkAccountHolderInfo b "" "" "" "" "").

(** Amounts are whole units of the currency here. *)
Definition services : Services.ServiceRuntime (rt := runtime) :=
  @Services.Build_ServiceRuntime runtime Z (fun amount => itoa amount +:+ ".00")
    renderRequestToPay renderTransfer decodeHolder.

Definition decoders : Auth.Decoders := {|
  Auth.decodeTokenResponse := decodeToken;
  Auth.decodeAPIKey := decodeKey
|}.

(** A production configuration with credentials, and a sandbox one
    without. *)
Definition production : Cfg.Config :=
  Cfg.mkConfig "sub" "dis" "mtnliberia" "" "user" "key" Cfg.Production "LRD"
    "proxy.momoapi.mtn.com".

Definition sandbox : Cfg.Config :=
  Cfg.mkConfig "sub" "sub" "sandbox" "cb.example" "" "" Cfg.Sandbox "EUR"
    "sandbox.momodeveloper.mtn.com".

Definition service (c : Cfg.Config) : Auth.AuthService :=
  Auth.NewAuthService (Dispatch.NewClient c) c.

(** A reply with the given status and body, after one millisecond. *)
Definition reply (status : Z) (text : string) : Reply :=
  mkReply 1000000 (inr (mkResponse status text)).

(** A world at instant [t] whose network will answer with [rs]. *)
Definition world (t : Time) (rs : list Reply) : World := mkWorld t rs [] [].

End Double.

(** ** The queries of the two services (collection.go, disbursement.go) *)

Module Queries.
Import Dispatch Auth Models Services.

(** [TransactionStatus] is a string type with five constants. *)
Definition TransactionStatus : Type := string.
Definition Pending : TransactionStatus := "PENDING".
Definition Successful : TransactionStatus := "SUCCESSFUL".
Definition Failed : TransactionStatus := "FAILED".
Definition Rejected : TransactionStatus := "REJECTED".
Definition Timeout : TransactionStatus := "TIMEOUT".

Record TransactionStatusResponse : Type := mkTransactionStatusResponse {
  tsAmount : string;
  tsCurrency : string;
  tsExternalID : string;
  tsPayer : PartyInfo;
  tsPayee : PartyInfo;
  tsPayerMessage : string;
  tsPayeeNote : string;
  tsStatus : TransactionStatus;
  tsReason : string;
  tsFinancialTransactionID : string
}.

(** The zero value of [var result TransactionStatusResponse]. *)
Definition zeroStatus : TransactionStatusResponse :=
  mkTransactionStatusResponse "" "" "" (mkPartyInfo "" "") (mkPartyInfo "" "")
    "" "" "" "" "".

(** The JSON decoders of [TransactionStatusResponse] and of the anonymous
    struct with the fields [availableBalance] and [currency]. *)
Class QueryRuntime : Type := {
  decodeTransactionStatus : Decoder TransactionStatusResponse;
  decodeBalance : Decoder (string * string)
}.

Section WithRuntime.
Context {rt : Runtime} {dec : Decoders} {qrt : QueryRuntime}.

(** [(s *CollectionService) GetTransactionStatus(ctx, referenceID)]: the
    error, or the record the returned pointer points to. *)
Definition GetTransactionStatus (s : CollectionService) (auth : AuthService)
    (referenceID : string) : IO ((error + TransactionStatusResponse) * AuthService) :=
  let! t := GetAccessToken auth "collection" in
  match t with
  | (inl err, auth) => ret (inl (Errorf_w "error getting access token: " err), auth)
  | (inr token, auth) =>
      let req := mkRequest "GET" ("/collection/v1_0/requesttopay/" +:+ referenceID) None
                   (queryHeaders token (Cfg.TargetEnvironment (colConfig s))
                      (Cfg.SubscriptionKey (colConfig s))) ∅ in
      let! r := DoRequest (colClient s) req (Some decodeTransactionStatus) in
      match r with
      | inl err => ret (inl (Errorf_w "error checking transaction status: " err), auth)
      | inr written => ret (inr (default zeroStatus written), auth)
      end
  end.

(** [(s *DisbursementService) GetTransferStatus(ctx, referenceID)] *)
Definition GetTransferStatus (s : DisbursementService) (auth : AuthService)
    (referenceID : string) : IO ((error + TransactionStatusResponse) * AuthService) :=
  let! t := GetAccessToken auth "disbursement" in
  match t with
  | (inl err, auth) => ret (inl (Errorf_w "error getting access token: " err), auth)
  | (inr token, auth) =>
      let req := mkRequest "GET" ("/disbursement/v1_0/transfer/" +:+ referenceID) None
                   (queryHeaders token (Cfg.TargetEnvironment (disConfig s))
                      (Cfg.DisbursementKey (disConfig s))) ∅ in
      let! r := DoRequest (disClient s) req (Some decodeTransactionStatus) in
      match r with
      | inl err => ret (inl (Errorf_w "error checking transfer status: " err), auth)
      | inr written => ret (inr (default zeroStatus written), auth)
      end
  end.

(** [(s *CollectionService) GetAccountBalance(ctx)]: the error, or the
    available balance and the currency. *)
Definition CollectionGetAccountBalance (s : CollectionService) (auth : AuthService)
    : IO ((error + string * string) * AuthService) :=
  let! t := GetAccessToken auth "collection" in
  match t with
  | (inl err, auth) => ret (inl (Errorf_w "error getting access token: " err), auth)
  | (inr token, auth) =>
      let req := mkRequest "GET" "/collection/v1_0/account/balance" None
                   (queryHeaders token (Cfg.TargetEnvironment (colConfig s))
                      (Cfg.SubscriptionKey (colConfig s))) ∅ in
      let! r := DoRequest (colClient s) req (Some decodeBalance) in
      match r with
      | inl err => ret (inl (Errorf_w "error getting account balance: " err), auth)
      | inr written => ret (inr (default ("", "") written), auth)
      end
  end.


End WithRuntime.
End Queries.

(** ** Idempotency keys (models.go) *)

Module Keys.

(** [strings.Join(elems, sep)] *)
Fixpoint Join (elems : list string) (sep : string) : string :=
  match elems with
  | [] => EmptyString
  | [x] => x
  | x :: rest => x +:+ sep +:+ Join rest sep
  end.

(** [t.Format("20060102150405")], in the zone of the process. *)
Class Calendar : Type := {
  Format_stamp : Time -> string
}.

(** [GenerateIdempotencyKey(prefix, uniqueElements...)] *)
Definition GenerateIdempotencyKey {cal : Calendar} (prefix : string)
    (uniqueElements : list string) : IO string :=
  let elements := ([prefix] ++ uniqueElements)%list in
  let! now := Now in
  let elements := (elements ++ [Format_stamp now])%list in
  ret (Join elements "_").

End Keys.

(** ** The client (momo.go) *)

Module Top.
Import Dispatch Auth Services.

Section WithRuntime.
Context {rt : Runtime} {dec : Decoders}.

(** The two services point to the one authentication service [Auth]. *)
Record MoMoClient : Type := mkMoMoClient {
  Config : Cfg.Config;
  Auth : AuthService;
  Collection : CollectionService;
  Disbursement : DisbursementService
}.

Definition NewMoMoClient (config : Cfg.Config) : MoMoClient :=
  let client := NewClient config in
  let authService := NewAuthService client config in
  mkMoMoClient config authService
    (mkCollectionService client config)
    (mkDisbursementService client config).

(** [InitFromEnv(environment)], the process environment being [Getenv].
    [NewConfig] returns a configuration or an error, so the last case does
    not arise. *)
Definition InitFromEnv (Getenv : string -> string) (environment : Cfg.EnvironmentType)
    : option MoMoClient * option error :=
  match Cfg.NewConfig environment [Cfg.FromEnv Getenv] with
  | (_, Some err) => (None, Some err)
  | (Some config, None) => (Some (NewMoMoClient config), None)
  | (None, None) => (None, None)
  end.

End WithRuntime.
End Top.

(** ** Notions the statements use *)

(** What [FromEnv] does to a field: the value of the variable when it is
    set, the field as it was otherwise. *)
Definition fromEnvOr (Getenv : string -> string) (name old : string) : string :=
  if isEmpty (Getenv name) then old else Getenv name.

(** The [*http.Request] that [DoRequest] builds from a descriptor whose
    body has been marshalled to [payload]. *)
Definition httpRequestOf {rt : Runtime} (c : Dispatch.Client) (req : Dispatch.Request)
    (payload : option string) : HTTPRequest :=
  mkHTTPRequest (Dispatch.Method req) (Dispatch.requestURL c req)
    (Dispatch.Headers req ∪ {[ "Content-Type" := "application/json" ]})
    (Dispatch.QueryParams req) payload.

(** A second test double: bodies are texts, the body "NaN" cannot be
    marshalled, and a method with a space in it makes no request. *)
Module Strict.

Definition hasSpace (s : string) : bool :=
  existsb (Ascii.eqb " ") (list_ascii_of_string s).

Definition runtime : Runtime := {|
  body := string;
  json_Marshal := fun b =>
    if String.eqb b "NaN" then inl (errorString "json: unsupported value: NaN")
    else inr b;
  bodyOfMap := fun m => Double.q "map";
  http_NewRequest := fun method url =>
    if hasSpace method then Some (errorString "net/http: invalid method") else None;
  base64_EncodeToString := fun s => s
|}.

End Strict.

(** Decoders of the query results for the test double: the body of a
    status answer is taken as the status itself, that of a balance answer
    as the balance, in EUR. *)
Module DoubleQueries.

Definition decodeStatus : Decoder Queries.TransactionStatusResponse := fun b =>
  if isEmpty b then inl io_EOF
  else inr (Queries.mkTransactionStatusResponse "" "" ""
              (Models.mkPartyInfo "" "") (Models.mkPartyInfo "" "") "" "" b "" "").

Definition decodeBalance : Decoder (string * string) := fun b =>
  if isEmpty b then inl io_EOF else inr (b, "EUR").

Definition queries : Queries.QueryRuntime := {|
  Queries.decodeTransactionStatus := decodeStatus;
  Queries.decodeBalance := decodeBalance
|}.

End DoubleQueries.


(** * Properties *)

(** ** Phone normalisation *)

Section PhoneFacts.
Import Phone.

Lemma byteOf_range (c : ascii) : 0 <= byteOf c < 256.
Proof. unfold byteOf. pose proof (nat_ascii_bounded c). lia. Qed.

Lemma byte_byteOf (c : ascii) : byte (byteOf c) = c.
Proof. unfold byte, byteOf. rewrite Nat2Z.id. apply ascii_nat_embedding. Qed.

(** The payload bits of a leading or second byte are not all zero in the
    ranges where [decodeRune] relies on them. *)
Lemma payload_bits (c : ascii) :
  let b := byteOf c in
  ((194 <=? b) && (b <=? 223) = true -> (1 <=? Z.land b 31) = true)
  /\ ((225 <=? b) && (b <=? 239) = true -> (1 <=? Z.land b 15) = true)
  /\ ((241 <=? b) && (b <=? 244) = true -> (1 <=? Z.land b 7) = true)
  /\ ((144 <=? b) && (b <=? 191) = true -> (1 <=? Z.land b 63) = true).
Proof.
  destruct c as [[] [] [] [] [] [] [] []]; vm_compute;
    repeat split; intros H; first [reflexivity | discriminate H].
Qed.

Lemma shiftl_ge64 (x n : Z) : 1 <= x -> 6 <= n -> 64 <= Z.shiftl x n.
Proof.
  intros Hx Hn. rewrite Z.shiftl_mul_pow2 by lia.
  assert (2 ^ 6 <= 2 ^ n) by (apply Z.pow_le_mono_r; lia).
  change (2 ^ 6) with 64 in *. nia.
Qed.

Lemma lor_ge64_l (a b : Z) : 0 <= b -> 64 <= a -> 64 <= Z.lor a b.
Proof.
  intros Hb Ha.
  assert (Hlog : 6 <= Z.log2 (Z.lor a b)).
  { rewrite Z.log2_lor by lia.
    assert (Z.log2 64 <= Z.log2 a) by (apply Z.log2_le_mono; lia).
    change (Z.log2 64) with 6 in *. lia. }
  destruct (Z.le_gt_cases (Z.lor a b) 0) as [Hle|Hgt].
  - rewrite (Z.log2_nonpos _ Hle) in Hlog. lia.
  - destruct (Z.log2_spec _ Hgt) as [Hlow _].
    assert (2 ^ 6 <= 2 ^ Z.log2 (Z.lor a b)) by (apply Z.pow_le_mono_r; lia).
    change (2 ^ 6) with 64 in *. lia.
Qed.

Lemma lor_ge64_r (a b : Z) : 0 <= a -> 64 <= b -> 64 <= Z.lor a b.
Proof. intros Ha Hb. rewrite Z.lor_comm. now apply lor_ge64_l. Qed.

Lemma land_byte_nonneg (c : ascii) (m : Z) : 0 <= Z.land (byteOf c) m.
Proof. apply Z.land_nonneg. left. apply byteOf_range. Qed.

(** The rune that starts at a byte of 0x80 and above is not below 64, and
    the bytes of it that follow are of 0x80 and above as well. *)
Lemma decodeRune_high (c : ascii) (rest : string) (r : Z) (width : nat) :
  128 <= byteOf c ->
  decodeRune (String c rest) = (r, width) ->
  64 <= r /\ highPrefix (width - 1) rest = true.
Proof.
  intros Hc. unfold decodeRune.
  pose proof (payload_bits c) as (P31 & P15 & P7 & _).
  set (b0 := byteOf c) in *.
  destruct (b0 <? 128) eqn:H128; [lia|].
  assert (Herror : 64 <= RuneError /\ highPrefix (1 - 1) rest = true)
    by (split; [unfold RuneError; lia | reflexivity]).
  destruct ((b0 <? 194) || (244 <? b0)) eqn:Hlead; [now intros [= <- <-]|].
  apply orb_false_iff in Hlead as [H194 H244].
  destruct rest as [|c1 s2]; [now intros [= <- <-]|].
  pose proof (payload_bits c1) as (_ & _ & _ & Q63).
  pose proof (byteOf_range c1) as Hr1.
  set (b1 := byteOf c1) in *.
  destruct ((b1 <? acceptLo b0) || (acceptHi b0 <? b1)) eqn:Hacc; [now intros [= <- <-]|].
  apply orb_false_iff in Hacc as [Hlo Hhi].
  assert (Hb1 : 128 <= b1 <= 191).
  { unfold acceptLo, acceptHi in Hlo, Hhi.
    destruct (b0 =? 224), (b0 =? 240), (b0 =? 237), (b0 =? 244); lia. }
  assert (Hhigh1 : (128 <=? b1) = true) by (apply Z.leb_le; lia).
  assert (Hsecond : b0 = 224 \/ b0 = 240 -> 1 <= Z.land b1 63).
  { intros Hb0. apply Z.leb_le, Q63. apply andb_true_iff.
    unfold acceptLo in Hlo.
    destruct Hb0 as [->| ->]; cbn in Hlo; split; apply Z.leb_le; lia. }
  destruct (b0 <? 224) eqn:H224.
  { intros [= <- <-]. split; [|cbn [highPrefix Nat.sub]; rewrite ?andb_true_iff; repeat split; assumption].
    apply lor_ge64_l; [apply land_byte_nonneg|].
    apply shiftl_ge64; [|lia]. apply Z.leb_le, P31, andb_true_iff.
    split; apply Z.leb_le; lia. }
  destruct s2 as [|c2 s3]; [now intros [= <- <-]|].
  pose proof (byteOf_range c2) as Hr2.
  set (b2 := byteOf c2) in *.
  destruct (isContinuation b2) eqn:Hc2; cbn [negb]; [|now intros [= <- <-]].
  apply andb_true_iff in Hc2 as [Hhigh2 _].
  destruct (b0 <? 240) eqn:H240.
  { intros [= <- <-]. split; [|cbn [highPrefix Nat.sub]; rewrite ?andb_true_iff; repeat split; assumption].
    apply lor_ge64_l; [apply land_byte_nonneg|].
    destruct (Z.eq_dec b0 224) as [He|Hne].
    - apply lor_ge64_r; [apply Z.shiftl_nonneg, land_byte_nonneg|].
      apply shiftl_ge64; [|lia]. apply Hsecond. now left.
    - apply lor_ge64_l; [apply Z.shiftl_nonneg, land_byte_nonneg|].
      apply shiftl_ge64; [|lia]. apply Z.leb_le, P15, andb_true_iff.
      split; apply Z.leb_le; lia. }
  destruct s3 as [|c3 s4]; [now intros [= <- <-]|].
  set (b3 := byteOf c3) in *.
  destruct (isContinuation b3) eqn:Hc3; cbn [negb]; [|now intros [= <- <-]].
  apply andb_true_iff in Hc3 as [Hhigh3 _].
  intros [= <- <-]. split; [|cbn [highPrefix Nat.sub]; rewrite ?andb_true_iff; repeat split; assumption].
  apply lor_ge64_l; [apply land_byte_nonneg|].
  apply lor_ge64_l; [apply Z.shiftl_nonneg, land_byte_nonneg|].
  destruct (Z.eq_dec b0 240) as [He|Hne].
  - apply lor_ge64_r; [apply Z.shiftl_nonneg, land_byte_nonneg|].
    apply shiftl_ge64; [|lia]. apply Hsecond. now right.
  - apply lor_ge64_l; [apply Z.shiftl_nonneg, land_byte_nonneg|].
    apply shiftl_ge64; [|lia]. apply Z.leb_le, P7, andb_true_iff.
    split; apply Z.leb_le; lia.
Qed.

(** With the closure of [formatPhoneNumber], the walk over the runes keeps
    the bytes that are ASCII digits and nothing else. *)
Lemma mapRunes_digits (s : string) :
  forall skip, highPrefix skip s = true ->
  mapRunes digitOrDrop skip s = keepDigits s.
Proof.
  induction s as [|c rest IH]; intros skip Hskip; [reflexivity|].
  pose proof (byteOf_range c) as Hc.
  destruct skip as [|k].
  - cbn [mapRunes keepDigits].
    destruct (decodeRune (String c rest)) as [r width] eqn:E.
    destruct (Z.lt_ge_cases (byteOf c) 128) as [Hlow|Hhigh].
    + unfold decodeRune in E.
      assert (H : (byteOf c <? 128) = true) by (apply Z.ltb_lt; lia).
      rewrite H in E. injection E as <- <-.
      unfold digitOrDrop, isDigit.
      destruct ((48 <=? byteOf c) && (byteOf c <=? 57)) eqn:Hd.
      * apply andb_true_iff in Hd as [H48 _]. apply Z.leb_le in H48.
        assert (H0 : (0 <=? byteOf c) = true) by (apply Z.leb_le; lia).
        assert (H127 : (byteOf c <=? 127) = true) by (apply Z.leb_le; lia).
        rewrite H0. unfold encodeRune. rewrite H127.
        unfold bytes. cbn [map string_of_list_ascii]. rewrite byte_byteOf.
        cbn. f_equal. now apply IH.
      * cbn. now apply IH.
    + apply decodeRune_high in E as [Hr Hrest]; [|exact Hhigh].
      assert (Hdrop : digitOrDrop r = -1).
      { unfold digitOrDrop.
        assert (H : (r <=? 57) = false) by (apply Z.leb_gt; lia).
        now rewrite H, andb_false_r. }
      assert (Hnd : isDigit c = false).
      { unfold isDigit. assert (H : (byteOf c <=? 57) = false) by (apply Z.leb_gt; lia).
        now rewrite H, andb_false_r. }
      rewrite Hdrop, Hnd. cbn. now apply IH.
  - cbn [mapRunes keepDigits]. cbn [highPrefix] in Hskip.
    apply andb_true_iff in Hskip as [Hhigh Hrest]. apply Z.leb_le in Hhigh.
    assert (Hnd : isDigit c = false).
    { unfold isDigit. assert (H : (byteOf c <=? 57) = false) by (apply Z.leb_gt; lia).
      now rewrite H, andb_false_r. }
    rewrite Hnd. now apply IH.
Qed.

Lemma strings_Map_digits (s : string) : strings_Map digitOrDrop s = keepDigits s.
Proof. now apply mapRunes_digits. Qed.

Lemma keepDigits_allDigits (s : string) : allDigits (keepDigits s) = true.
Proof.
  induction s as [|c s IH]; simpl; [reflexivity|].
  destruct (isDigit c) eqn:Hc; simpl; [rewrite Hc|]; exact IH.
Qed.

Lemma keepDigits_fixed (s : string) : allDigits s = true -> keepDigits s = s.
Proof.
  induction s as [|c s IH]; simpl; [reflexivity|].
  intros H. apply andb_prop in H as [Hc Hs].
  rewrite Hc. f_equal. exact (IH Hs).
Qed.

Lemma substring_all (s : string) : String.substring 0 (String.length s) s = s.
Proof. induction s as [|c s IH]; simpl; [reflexivity | now rewrite IH]. Qed.

Lemma prefix_countryCode (s : string) :
  HasPrefix s countryCode = true ->
  exists t, s = String "2" (String "3" (String "1" t)).
Proof.
  unfold countryCode.
  destruct s as [|a [|b [|c t]]]; cbn [HasPrefix];
    rewrite ?andb_false_r; try discriminate.
  intros H. apply andb_prop in H as [Ha H]. apply andb_prop in H as [Hb H].
  apply andb_prop in H as [Hc _].
  apply Ascii.eqb_eq in Ha as <-. apply Ascii.eqb_eq in Hb as <-.
  apply Ascii.eqb_eq in Hc as <-. now exists t.
Qed.

Lemma formatPhoneNumber_prefix (phone : string) :
  HasPrefix (formatPhoneNumber phone) countryCode = true.
Proof.
  unfold formatPhoneNumber. rewrite strings_Map_digits.
  destruct (keepDigits phone) as [|c d] eqn:E; [reflexivity|].
  assert (Hgen : HasPrefix
     (if negb (HasPrefix (String c d) countryCode)
      then countryCode +:+ String c d else String c d) countryCode = true).
  { destruct (HasPrefix (String c d) countryCode) eqn:Hp; simpl; [exact Hp | reflexivity]. }
  destruct c as [[] [] [] [] [] [] [] []]; first [exact Hgen | reflexivity].
Qed.

Lemma formatPhoneNumber_allDigits (phone : string) :
  allDigits (formatPhoneNumber phone) = true.
Proof.
  unfold formatPhoneNumber. rewrite strings_Map_digits.
  pose proof (keepDigits_allDigits phone) as Hd.
  destruct (keepDigits phone) as [|c d] eqn:E; [reflexivity|].
  assert (Hgen : allDigits
     (if negb (HasPrefix (String c d) countryCode)
      then countryCode +:+ String c d else String c d) = true).
  { destruct (negb _); [exact Hd | exact Hd]. }
  simpl in Hd. apply andb_prop in Hd as [_ Htail].
  destruct c as [[] [] [] [] [] [] [] []]; first [exact Hgen | exact Htail].
Qed.

End PhoneFacts.

(** Some runs: punctuation and spaces, a two-byte rune (U+00E9) between
    digits, and a stray lead byte (0xC3) in front of a digit. *)
Example formatPhoneNumber_punctuation :
  Phone.formatPhoneNumber "+231 (733) 123-454" = "231733123454".
Proof. reflexivity. Qed.

Example formatPhoneNumber_two_byte_rune :
  Phone.formatPhoneNumber (Phone.bytes [48; 55; 195; 169; 51]) = "23173".
Proof. reflexivity. Qed.

Example formatPhoneNumber_stray_lead_byte :
  Phone.formatPhoneNumber (Phone.bytes [195; 55; 51]) = "23173".
Proof. reflexivity. Qed.

Example strings_Map_identity_replaces_invalid_bytes :
  Phone.strings_Map (fun r => r) (Phone.bytes [55; 195; 51])
  = Phone.bytes [55; 239; 191; 189; 51].
Proof. reflexivity. Qed.

(** C7: [formatPhoneNumber] strips the non-digits and then does what the
    specification says of the result: a leading "0" is replaced by "231",
    otherwise "231" is put in front unless the result starts with it.  The
    three inputs of the specification give "231733123454". *)
Theorem formatPhoneNumber_normalizes :
  (forall phone, Phone.formatPhoneNumber phone = Phone.spec_normalize phone)
  /\ Phone.formatPhoneNumber "0733123454" = "231733123454"
  /\ Phone.formatPhoneNumber "733123454" = "231733123454"
  /\ Phone.formatPhoneNumber "231733123454" = "231733123454".
Proof.
  split; [|repeat split; reflexivity].
  intros phone. unfold Phone.formatPhoneNumber, Phone.spec_normalize.
  rewrite strings_Map_digits.
  destruct (Phone.keepDigits phone) as [|c d]; [reflexivity|].
  assert (Hsub : String.substring 1 (String.length (String c d) - 1) (String c d) = d).
  { simpl. rewrite Nat.sub_0_r. apply substring_all. }
  assert (Hother : Phone.HasPrefix (String c d) "0" = false ->
     (if negb (Phone.HasPrefix (String c d) Phone.countryCode)
      then Phone.countryCode +:+ String c d else String c d) =
     (if Phone.HasPrefix (String c d) "0"
      then Phone.countryCode +:+
           String.substring 1 (String.length (String c d) - 1) (String c d)
      else if Phone.HasPrefix (String c d) Phone.countryCode then String c d
      else Phone.countryCode +:+ String c d)).
  { intros ->. now destruct (Phone.HasPrefix (String c d) Phone.countryCode). }
  destruct c as [[] [] [] [] [] [] [] []];
    first [ apply Hother; destruct d; reflexivity
          | rewrite Hsub; destruct d; reflexivity ].
Qed.

(** ** Configuration *)

Section ConfigFacts.
Import Cfg.

Lemma isEmpty_true (s : string) : isEmpty s = true <-> s = "".
Proof. unfold isEmpty. apply String.eqb_eq. Qed.

Lemma isEmpty_false (s : string) : isEmpty s = false <-> s <> "".
Proof. unfold isEmpty. apply String.eqb_neq. Qed.

(** What a configuration that passed [Validate] looks like. *)
Lemma Validate_ok (c c' : Config) :
  Validate c = (c', None) ->
  isEmpty (SubscriptionKey c) = false
  /\ isEmpty (TargetEnvironment c) = false
  /\ isEmpty (Host c) = false
  /\ (String.eqb (Environment c) Production
      && isEmpty (APIUser c) && isEmpty (APIKey c) = false)
  /\ c' = (if isEmpty (DisbursementKey c)
           then setDisbursementKey (SubscriptionKey c) c else c)
  /\ isEmpty (Currency c) = false.
Proof.
  unfold Validate.
  destruct (isEmpty (SubscriptionKey c)); [discriminate|].
  destruct (isEmpty (TargetEnvironment c)); [discriminate|].
  destruct (isEmpty (Host c)); [discriminate|].
  destruct (String.eqb (Environment c) Production
            && isEmpty (APIUser c) && isEmpty (APIKey c)); [discriminate|].
  destruct (isEmpty (DisbursementKey c)); simpl;
    destruct (isEmpty (Currency c)); try discriminate;
    intros [= <-]; repeat split; reflexivity.
Qed.

(** [NewConfig] returns a configuration or an error, never both, and the
    fields [Validate] tests are set in the configuration it returns. *)
Lemma NewConfig_required_fields (environment : EnvironmentType)
    (opts : list ConfigOption) :
  match NewConfig environment opts with
  | (Some c, None) =>
      SubscriptionKey c <> "" /\ TargetEnvironment c <> "" /\ Host c <> ""
      /\ Currency c <> "" /\ DisbursementKey c <> ""
      /\ (Environment c = Production -> APIUser c <> "" \/ APIKey c <> "")
  | (None, Some _) => True
  | _ => False
  end.
Proof.
  unfold NewConfig.
  destruct (Validate (applyOptions opts (defaults environment))) as [c' [err|]] eqn:E;
    [exact I|].
  apply Validate_ok in E as (Hs & Ht & Hh & Hp & -> & Hc).
  set (c := applyOptions opts (defaults environment)) in *.
  assert (Hfields : forall d, let c' := if isEmpty (DisbursementKey c)
                                   then setDisbursementKey d c else c in
            SubscriptionKey c' = SubscriptionKey c /\ TargetEnvironment c' = TargetEnvironment c
            /\ Host c' = Host c /\ Currency c' = Currency c
            /\ Environment c' = Environment c /\ APIUser c' = APIUser c
            /\ APIKey c' = APIKey c).
  { intros d. simpl. destruct (isEmpty (DisbursementKey c)); repeat split; reflexivity. }
  destruct (Hfields (SubscriptionKey c)) as (-> & -> & -> & -> & -> & -> & ->).
  apply isEmpty_false in Hs, Ht, Hh, Hc.
  repeat split; try assumption.
  - destruct (isEmpty (DisbursementKey c)) eqn:Hd; [exact Hs | now apply isEmpty_false].
  - intros Hprod. rewrite Hprod in Hp. simpl in Hp.
    destruct (isEmpty (APIUser c)) eqn:Hu; [|left; now apply isEmpty_false].
    simpl in Hp. right. now apply isEmpty_false.
Qed.

End ConfigFacts.

(** Some runs of [NewConfig]. *)
Example NewConfig_sandbox_without_key :
  Cfg.NewConfig Cfg.Sandbox [] = (None, Some (errorString "subscription key is required")).
Proof. reflexivity. Qed.

Example NewConfig_production_without_credentials :
  Cfg.NewConfig Cfg.Production
    [Cfg.WithSubscriptionKey "sub"; Cfg.WithTargetEnvironment "mtnliberia";
     Cfg.WithHost "proxy.momoapi.mtn.com"; Cfg.WithCurrency "LRD"]
  = (None, Some (errorString "API user and key are required for production")).
Proof. reflexivity. Qed.

Example NewConfig_production_without_currency :
  Cfg.NewConfig Cfg.Production
    [Cfg.WithSubscriptionKey "sub"; Cfg.WithTargetEnvironment "mtnliberia";
     Cfg.WithHost "proxy.momoapi.mtn.com"; Cfg.WithAPIUser "user"; Cfg.WithAPIKey "key"]
  = (None, Some (errorString "currency is required")).
Proof. reflexivity. Qed.

(** C4: [NewConfig] on a production configuration that has an API user but
    no API key.  [Validate] rejects a production configuration only when the
    user and the key are both missing, so the construction succeeds and the
    configuration returned has no API key, although the error text of that
    test reads "API user and key are required for production". *)
Theorem NewConfig_production_user_without_key :
  exists c,
    Cfg.NewConfig Cfg.Production
      [Cfg.WithSubscriptionKey "sub"; Cfg.WithTargetEnvironment "mtnliberia";
       Cfg.WithHost "proxy.momoapi.mtn.com"; Cfg.WithCurrency "LRD";
       Cfg.WithAPIUser "user"] = (Some c, None)
    /\ Cfg.Environment c = Cfg.Production
    /\ Cfg.APIUser c = "user" /\ Cfg.APIKey c = ""
    /\ Cfg.hasUserAndKey c = false.
Proof. eexists. repeat split. Qed.

(** C9: for a configuration that passes [Validate], an empty disbursement
    key has become the subscription key, with no error reported, and a
    disbursement key that was set is the one it was; no other field is
    touched. *)
Theorem Validate_defaults_disbursement_key (c c' : Cfg.Config) :
  Cfg.Validate c = (c', None) ->
  (Cfg.DisbursementKey c = "" -> Cfg.DisbursementKey c' = Cfg.SubscriptionKey c')
  /\ (Cfg.DisbursementKey c <> "" -> Cfg.DisbursementKey c' = Cfg.DisbursementKey c)
  /\ Cfg.setDisbursementKey (Cfg.DisbursementKey c) c' = c.
Proof.
  intros H. apply Validate_ok in H as (_ & _ & _ & _ & -> & _).
  destruct c as [sk dk te cb au ak en cu ho]; simpl.
  destruct (isEmpty dk) eqn:E.
  - apply isEmpty_true in E as ->.
    repeat split; intros; first [reflexivity | congruence].
  - apply isEmpty_false in E.
    repeat split; intros; first [reflexivity | congruence].
Qed.

(** The sandbox defaults with a subscription key and nothing else. *)
Lemma Validate_defaults_disbursement_key_witness :
  let c := Cfg.applyOptions [Cfg.WithSubscriptionKey "sub"] (Cfg.defaults Cfg.Sandbox) in
  Cfg.DisbursementKey (fst (Cfg.Validate c)) = "sub".
Proof.
  intros c.
  exact (proj1 (Validate_defaults_disbursement_key c (fst (Cfg.Validate c)) eq_refl) eq_refl).
Defined.

(** ** The dispatcher *)

Section DispatchFacts.
Import Dispatch.
Context {rt : Runtime}.

(** A request that can be marshalled and built is sent, and [DoRequest]
    goes by the reply alone. *)
Lemma DoRequest_dispatched {T : Type} (c : Client) (req : Request)
    (result : option (Decoder T)) (w : World) (payload : option string) :
  marshalBody (Body req) = inr payload ->
  http_NewRequest (Method req) (requestURL c req) = None ->
  DoRequest c req result w =
  let httpReq := mkHTTPRequest (Method req) (requestURL c req)
                   (Headers req ∪ {[ "Content-Type" := "application/json" ]})
                   (QueryParams req) payload in
  let (r, w') := Do httpReq w in
  (match r with
   | inl err => inl (Errorf_w "error making HTTP request: " err)
   | inr resp =>
       if (StatusCode resp <? 200) || (300 <=? StatusCode resp) then
         inl (errorString ("API request failed with status code "
                           +:+ itoa (StatusCode resp) +:+ ": " +:+ RespBody resp))
       else
         match result with
         | Some decode =>
             if negb (StatusCode resp =? StatusNoContent) then
               match decode (RespBody resp) with
               | inl err => inl (Errorf_w "error decoding response: " err)
               | inr v => inr (Some v)
               end
             else inr None
         | None => inr None
         end
   end, w').
Proof.
  intros Hm Hn. unfold DoRequest. rewrite Hm, Hn. unfold bind. cbv zeta.
  destruct (Do _ w) as [[err|resp] w']; [reflexivity|].
  destruct ((StatusCode resp <? 200) || (300 <=? StatusCode resp)); [reflexivity|].
  destruct result as [decode|]; [|reflexivity].
  destruct (negb (StatusCode resp =? StatusNoContent)); [|reflexivity].
  destruct (decode (RespBody resp)); reflexivity.
Qed.

(** A request that cannot be marshalled or built is not sent: the world is
    as it was and the call fails. *)
Lemma DoRequest_not_dispatched {T : Type} (c : Client) (req : Request)
    (result : option (Decoder T)) (w : World) :
  (exists err, marshalBody (Body req) = inl err)
  \/ (exists err, http_NewRequest (Method req) (requestURL c req) = Some err) ->
  exists err, DoRequest c req result w = (inl err, w).
Proof.
  unfold DoRequest. intros [[err H]|[err H]].
  - rewrite H. now exists err.
  - destruct (marshalBody (Body req)) as [e|p]; [now exists e|].
    rewrite H. eexists. reflexivity.
Qed.

Lemma Do_reply (r : HTTPRequest) (w : World) (rp : Reply) (rest : list Reply) :
  replies w = rp :: rest ->
  Do r w = (answer rp,
            mkWorld (clock w + Z.of_N (elapsed rp)) rest (sent w ++ [r]) (uuids w)).
Proof. intros H. unfold Do. now rewrite H. Qed.

End DispatchFacts.

(** C8: a request that is dispatched and answered with a status outside
    [200,300) makes [DoRequest] fail with the error whose text is
    "API request failed with status code ", the status in decimal, ": " and
    the response body as it is; a 403 gives "... status code 403: " and the
    body.  A status in [200,300) is no such failure: without an output slot
    the call succeeds, and with one the only error left is that of decoding. *)
Theorem DoRequest_status_failure {rt : Runtime} {T : Type} (c : Dispatch.Client)
    (req : Dispatch.Request) (result : option (Decoder T)) (w : World)
    (payload : option string) (rp : Reply) (rest : list Reply) (resp : Response) :
  Dispatch.marshalBody (Dispatch.Body req) = inr payload ->
  http_NewRequest (Dispatch.Method req) (Dispatch.requestURL c req) = None ->
  replies w = rp :: rest ->
  answer rp = inr resp ->
  (StatusCode resp < 200 \/ 300 <= StatusCode resp ->
     fst (Dispatch.DoRequest c req result w) =
     inl (errorString ("API request failed with status code "
                       +:+ itoa (StatusCode resp) +:+ ": " +:+ RespBody resp)))
  /\ (StatusCode resp = 403 ->
        exists err, fst (Dispatch.DoRequest c req result w) = inl err
                    /\ Error err = "API request failed with status code 403: " +:+ RespBody resp)
  /\ (200 <= StatusCode resp < 300 ->
        (result = None -> fst (Dispatch.DoRequest c req result w) = inr None)
        /\ (forall err, fst (Dispatch.DoRequest c req result w) = inl err ->
              exists cause, err = Errorf_w "error decoding response: " cause)).
Proof.
  intros Hm Hn Hr Ha.
  rewrite (DoRequest_dispatched c req result w payload Hm Hn).
  cbv zeta. rewrite (Do_reply _ w rp rest Hr), Ha. cbn [fst].
  assert (Hfail : StatusCode resp < 200 \/ 300 <= StatusCode resp ->
                  (StatusCode resp <? 200) || (300 <=? StatusCode resp) = true).
  { intros [H|H]; apply orb_true_iff; [left; lia | right; lia]. }
  split; [|split].
  - intros H. now rewrite (Hfail H).
  - intros H. rewrite Hfail by lia. eexists. split; [reflexivity|].
    rewrite H. reflexivity.
  - intros H.
    assert (Hok : (StatusCode resp <? 200) || (300 <=? StatusCode resp) = false).
    { apply orb_false_iff. split; lia. }
    rewrite Hok. split.
    + intros ->. reflexivity.
    + intros err. destruct result as [decode|]; [|discriminate].
      destruct (negb (StatusCode resp =? Dispatch.StatusNoContent)); [|discriminate].
      destruct (decode (RespBody resp)) as [cause|v]; [|discriminate].
      intros [= <-]. now exists cause.
Qed.

(** A status request to the production host answered with 403 and the body
    "Forbidden". *)
Lemma DoRequest_status_failure_witness :
  fst (Dispatch.DoRequest (rt := Double.runtime) (T := unit)
         (Dispatch.NewClient Double.production)
         (Dispatch.mkRequest "GET" "/collection/v1_0/requesttopay/ref" None ∅ ∅)
         None (Double.world 0 [Double.reply 403 "Forbidden"])) =
  inl (errorString "API request failed with status code 403: Forbidden").
Proof.
  refine (proj1 (DoRequest_status_failure (rt := Double.runtime)
            (Dispatch.NewClient Double.production)
            (Dispatch.mkRequest "GET" "/collection/v1_0/requesttopay/ref" None ∅ ∅)
            None (Double.world 0 [Double.reply 403 "Forbidden"])
            None (Double.reply 403 "Forbidden") [] (mkResponse 403 "Forbidden")
            eq_refl eq_refl eq_refl eq_refl) _).
  right. simpl. lia.
Defined.

(** C5: the decode test of [DoRequest] on a dispatched request answered with
    a status in [200,300) and an output slot.  With status 204 nothing is
    decoded and the call succeeds.  With any other status the body is
    decoded whether it is empty or not: on an empty body, where the
    specification has no decoding, a decoder that reports [io.EOF] there (as
    [encoding/json] does) makes the call fail with "error decoding
    response: EOF". *)
Theorem DoRequest_decodes_empty_body {rt : Runtime} {T : Type} (c : Dispatch.Client)
    (req : Dispatch.Request) (decode : Decoder T) (w : World)
    (payload : option string) (rp : Reply) (rest : list Reply) (resp : Response) :
  Dispatch.marshalBody (Dispatch.Body req) = inr payload ->
  http_NewRequest (Dispatch.Method req) (Dispatch.requestURL c req) = None ->
  replies w = rp :: rest ->
  answer rp = inr resp ->
  200 <= StatusCode resp < 300 ->
  (StatusCode resp = 204 ->
     fst (Dispatch.DoRequest c req (Some decode) w) = inr None)
  /\ (StatusCode resp <> 204 -> RespBody resp = "" -> decode "" = inl io_EOF ->
        Dispatch.spec_decodes (Some decode) resp = false
        /\ fst (Dispatch.DoRequest c req (Some decode) w) =
           inl (Errorf_w "error decoding response: " io_EOF)
        /\ Error (Errorf_w "error decoding response: " io_EOF) =
           "error decoding response: EOF").
Proof.
  intros Hm Hn Hr Ha Hs.
  rewrite (DoRequest_dispatched c req (Some decode) w payload Hm Hn).
  cbv zeta. rewrite (Do_reply _ w rp rest Hr), Ha. cbn [fst].
  assert (Hok : (StatusCode resp <? 200) || (300 <=? StatusCode resp) = false).
  { apply orb_false_iff. split; lia. }
  rewrite Hok. split.
  - intros ->. reflexivity.
  - intros Hne Hb He. unfold Dispatch.spec_decodes. rewrite Hb, He.
    assert (Hn204 : (StatusCode resp =? Dispatch.StatusNoContent) = false).
    { apply Z.eqb_neq. exact Hne. }
    rewrite Hn204. repeat split.
Qed.

(** The key request of the sandbox answered with 200 and an empty body. *)
Lemma DoRequest_decodes_empty_body_witness :
  fst (Dispatch.DoRequest (rt := Double.runtime)
         (Dispatch.NewClient Double.sandbox)
         (Dispatch.mkRequest "POST" "/v1_0/apiuser/u/apikey" None ∅ ∅)
         (Some Double.decodeKey) (Double.world 0 [Double.reply 200 ""])) =
  inl (Errorf_w "error decoding response: " io_EOF).
Proof.
  refine (proj1 (proj2 (proj2 (DoRequest_decodes_empty_body (rt := Double.runtime)
            (Dispatch.NewClient Double.sandbox)
            (Dispatch.mkRequest "POST" "/v1_0/apiuser/u/apikey" None ∅ ∅)
            Double.decodeKey (Double.world 0 [Double.reply 200 ""])
            None (Double.reply 200 "") [] (mkResponse 200 "")
            eq_refl eq_refl eq_refl eq_refl _) _ eq_refl eq_refl))).
  - simpl. lia.
  - simpl. lia.
Defined.

(** ** The token cache *)

Section AuthFacts.
Import Dispatch Auth.
Context {rt : Runtime} {dec : Decoders}.

(** What [DoRequest] does to the world: it uses up at most one reply, the
    clock does not go back, and at most one request is added to those sent,
    with the URL of this request. *)
Lemma DoRequest_world {T : Type} (c : Client) (req : Request)
    (result : option (Decoder T)) (w w' : World) (r : error + option T) :
  DoRequest c req result w = (r, w') ->
  (exists pre, replies w = (pre ++ replies w')%list)
  /\ clock w <= clock w'
  /\ uuids w' = uuids w
  /\ (w' = w \/ exists h, sent w' = (sent w ++ [h])%list /\ URL h = requestURL c req).
Proof.
  destruct (marshalBody (Body req)) as [e|payload] eqn:Hm.
  { destruct (DoRequest_not_dispatched c req result w) as [err ->]; [left; now exists e|].
    intros [= _ <-]. repeat split; [now exists [] | lia | now left]. }
  destruct (http_NewRequest (Method req) (requestURL c req)) as [e|] eqn:Hn.
  { destruct (DoRequest_not_dispatched c req result w) as [err ->]; [right; now exists e|].
    intros [= _ <-]. repeat split; [now exists [] | lia | now left]. }
  rewrite (DoRequest_dispatched c req result w payload Hm Hn). cbv zeta.
  unfold Do. destruct (replies w) as [|rp rest] eqn:Hr.
  - intros [= _ <-]. cbn. repeat split; [now exists [] | lia |].
    right. eexists. split; reflexivity.
  - intros [= _ <-]. cbn. repeat split; [now exists [rp] | lia |].
    right. eexists. split; reflexivity.
Qed.

(** A [DoRequest] with an output slot that returns [nil]: the request was
    sent, the reply had a status in [200,300), and the slot holds the
    decoded body unless the status was 204. *)
Lemma DoRequest_ok {T : Type} (c : Client) (req : Request) (decode : Decoder T)
    (w w' : World) (v : option T) :
  DoRequest c req (Some decode) w = (inr v, w') ->
  exists rp resp h,
    replies w = rp :: replies w'
    /\ answer rp = inr resp
    /\ sent w' = (sent w ++ [h])%list /\ URL h = requestURL c req
    /\ clock w' = clock w + Z.of_N (elapsed rp)
    /\ 200 <= StatusCode resp < 300
    /\ ((StatusCode resp = 204 /\ v = None)
        \/ (StatusCode resp <> 204 /\ exists x, decode (RespBody resp) = inr x /\ v = Some x)).
Proof.
  destruct (marshalBody (Body req)) as [e|payload] eqn:Hm.
  { destruct (DoRequest_not_dispatched c req (Some decode) w) as [err ->];
      [left; now exists e | discriminate]. }
  destruct (http_NewRequest (Method req) (requestURL c req)) as [e|] eqn:Hn.
  { destruct (DoRequest_not_dispatched c req (Some decode) w) as [err ->];
      [right; now exists e | discriminate]. }
  rewrite (DoRequest_dispatched c req (Some decode) w payload Hm Hn). cbv zeta.
  unfold Do. destruct (replies w) as [|rp rest] eqn:Hr; [discriminate|].
  destruct (answer rp) as [e|resp] eqn:Ha; [discriminate|].
  destruct ((StatusCode resp <? 200) || (300 <=? StatusCode resp)) eqn:Hs; [discriminate|].
  apply orb_false_iff in Hs as [Hlo Hhi].
  unfold StatusNoContent.
  destruct (StatusCode resp =? 204) eqn:H204; cbn [negb].
  - intros [= <- <-]. exists rp, resp. eexists. cbn.
    repeat split; try reflexivity; try lia; try exact Ha.
    left. split; [lia | reflexivity].
  - destruct (decode (RespBody resp)) as [e|x] eqn:Hd; [discriminate|].
    intros [= <- <-]. exists rp, resp. eexists. cbn.
    repeat split; try reflexivity; try lia; try exact Ha.
    right. split; [lia | now exists x].
Qed.

Lemma NewUUID_world (w w' : World) (id : string) :
  NewUUID w = (id, w') ->
  replies w' = replies w /\ clock w' = clock w /\ sent w' = sent w.
Proof.
  unfold NewUUID. destruct (uuids w); intros [= _ <-]; repeat split.
Qed.

Lemma CreateAPIUser_world (s : AuthService) (w w' : World) (r : error + string) :
  CreateAPIUser s w = (r, w') ->
  (exists pre, replies w = (pre ++ replies w')%list) /\ clock w <= clock w'.
Proof.
  unfold CreateAPIUser.
  destruct (negb _).
  { intros [= _ <-]. split; [now exists [] | lia]. }
  unfold bind. destruct (NewUUID w) as [id w1] eqn:Hu.
  apply NewUUID_world in Hu as (Hr & Hc & _).
  destruct (DoRequest _ _ _ w1) as [x w2] eqn:Hd.
  apply DoRequest_world in Hd as ([pre Hpre] & Hclock & _).
  rewrite <- Hr, <- Hc.
  destruct x; intros [= _ <-]; (split; [now exists pre | exact Hclock]).
Qed.

Lemma CreateAPIKey_world (s : AuthService) (apiUserID : string) (w w' : World)
    (r : error + string) :
  CreateAPIKey s apiUserID w = (r, w') ->
  (exists pre, replies w = (pre ++ replies w')%list) /\ clock w <= clock w'.
Proof.
  unfold CreateAPIKey.
  destruct (negb _).
  { intros [= _ <-]. split; [now exists [] | lia]. }
  unfold bind.
  destruct (DoRequest _ _ _ w) as [x w2] eqn:Hd.
  apply DoRequest_world in Hd as ([pre Hpre] & Hclock & _).
  destruct x; intros [= _ <-]; (split; [now exists pre | exact Hclock]).
Qed.

(** The credentials part of [fetchToken] only moves the world forward. *)
Lemma productRoute_product (c : Cfg.Config) (product tokenPath key : string) :
  productRoute c product = Some (tokenPath, key) ->
  (product = "collection" \/ product = "disbursement")
  /\ tokenPath = "/" +:+ product +:+ "/token/".
Proof.
  unfold productRoute.
  destruct (String.eqb product "collection") eqn:Hc.
  { apply String.eqb_eq in Hc as ->. intros [= <- _]. split; [now left | reflexivity]. }
  destruct (String.eqb product "disbursement") eqn:Hd; [|discriminate].
  apply String.eqb_eq in Hd as ->. intros [= <- _]. split; [now right | reflexivity].
Qed.


(** A [fetchToken] that returns a token: the product is one of the two, the
    token request was answered, and the service holds the token of the
    answer with the expiry computed from its [expires_in]. *)
Lemma fetchToken_success (s s' : AuthService) (product tok : string) (w w' : World) :
  fetchToken s product w = ((inr tok, s'), w') ->
  exists w1 tokenPath key apiUser apiKey written,
    (exists pre, replies w = (pre ++ replies w1)%list)
    /\ clock w <= clock w1
    /\ productRoute (config s) product = Some (tokenPath, key)
    /\ DoRequest (client s) (tokenRequest tokenPath key apiUser apiKey)
         (Some decodeTokenResponse) w1 = (inr written, w')
    /\ tok = AccessToken (default zeroTokenResponse written)
    /\ s' = mkAuthService (client s) (config s) tok
              (Add (clock w') (renewalDelay (ExpiresIn (default zeroTokenResponse written)))).
Proof.
  unfold fetchToken, bind.
  destruct (credentials s w) as [creds w1] eqn:Hcreds.
  assert (Hw1 : (exists pre, replies w = (pre ++ replies w1)%list) /\ clock w <= clock w1).
  { unfold credentials, bind in Hcreds. destruct (provisions (config s)).
    - destruct (CreateAPIUser s w) as [u wu] eqn:Hu.
      apply CreateAPIUser_world in Hu as ([pre1 Hp1] & Hc1).
      destruct u as [e|apiUser]; [injection Hcreds as _ <-; split; [now exists pre1 | exact Hc1]|].
      destruct (CreateAPIKey s apiUser wu) as [k wk] eqn:Hk.
      apply CreateAPIKey_world in Hk as ([pre2 Hp2] & Hc2).
      assert (w1 = wk) as -> by (destruct k; now injection Hcreds).
      split; [|lia]. exists (pre1 ++ pre2)%list. rewrite Hp1, Hp2. now rewrite app_assoc.
    - injection Hcreds as _ <-. split; [now exists [] | lia]. }
  clear Hcreds. destruct Hw1 as [Hpre Hclock].
  destruct creds as [e|[apiUser apiKey]]; [discriminate|].
  destruct (productRoute (config s) product) as [[tokenPath key]|] eqn:Hroute; [|discriminate].
  destruct (DoRequest _ _ _ w1) as [[e|written] w2] eqn:Hd; [discriminate|].
  unfold Now, ret. cbn. intros [= <- <- <-].
  exists w1, tokenPath, key, apiUser, apiKey, written.
  repeat split; try assumption; reflexivity.
Qed.


(** Without provisioning, and when the token request can be built,
    [fetchToken] for one of the two products sends that request and no
    other. *)
Lemma fetchToken_sends (s : AuthService) (product : string) (w : World) :
  provisions (config s) = false ->
  product = "collection" \/ product = "disbursement" ->
  http_NewRequest "POST"
    ("https://" +:+ Cfg.Host (clientConfig (client s)) +:+ "/" +:+ product +:+ "/token/")
    = None ->
  exists h,
    sent (snd (fetchToken s product w)) = (sent w ++ [h])%list
    /\ URL h = "https://" +:+ Cfg.Host (clientConfig (client s))
               +:+ "/" +:+ product +:+ "/token/".
Proof.
  intros Hp Hprod Hn. unfold fetchToken, credentials, bind, ret. rewrite Hp.
  assert (Hroute : exists key,
            productRoute (config s) product = Some ("/" +:+ product +:+ "/token/", key)).
  { destruct Hprod as [-> | ->]; eexists; reflexivity. }
  destruct Hroute as [key ->]. cbv beta iota zeta.
  rewrite (DoRequest_dispatched (client s)
             (tokenRequest ("/" +:+ product +:+ "/token/") key
                (Cfg.APIUser (config s)) (Cfg.APIKey (config s)))
             (Some decodeTokenResponse) w None eq_refl Hn).
  cbv zeta.
  destruct (Do _ w) as [r w1] eqn:Hdo.
  assert (Hsent : exists h, sent w1 = (sent w ++ [h])%list
            /\ URL h = "https://" +:+ Cfg.Host (clientConfig (client s))
                       +:+ "/" +:+ product +:+ "/token/").
  { unfold Do in Hdo. destruct (replies w); injection Hdo as _ <-;
      eexists; split; reflexivity. }
  destruct r as [err|resp]; [exact Hsent|].
  destruct ((StatusCode resp <? 200) || (300 <=? StatusCode resp)); [exact Hsent|].
  destruct (negb (StatusCode resp =? StatusNoContent)); [|exact Hsent].
  destruct (decodeTokenResponse (RespBody resp)); exact Hsent.
Qed.

Lemma GetAccessToken_cached (s : AuthService) (product : string) (w : World) :
  cacheValid s (clock w) = true ->
  GetAccessToken s product w = ((inr (accessToken s), s), w).
Proof. intros H. unfold GetAccessToken, bind, Now. now rewrite H. Qed.

Lemma GetAccessToken_uncached (s : AuthService) (product : string) (w : World) :
  cacheValid s (clock w) = false ->
  GetAccessToken s product w = fetchToken s product w.
Proof. intros H. unfold GetAccessToken, bind, Now. now rewrite H. Qed.

Lemma cacheValid_true (s : AuthService) (now : Time) :
  cacheValid s now = true <-> accessToken s <> "" /\ now < tokenExpiry s.
Proof.
  unfold cacheValid, Before. rewrite andb_true_iff, negb_true_iff, isEmpty_false.
  now rewrite Z.ltb_lt.
Qed.

(** The token a successful call returns is the one the service holds. *)
Lemma GetAccessToken_returns_cached (s s' : AuthService) (product tok : string)
    (w w' : World) :
  GetAccessToken s product w = ((inr tok, s'), w') -> accessToken s' = tok.
Proof.
  destruct (cacheValid s (clock w)) eqn:Hv.
  - rewrite (GetAccessToken_cached _ _ _ Hv). now intros [= <- <- _].
  - rewrite (GetAccessToken_uncached _ _ _ Hv). intros H.
    apply fetchToken_success in H as (? & ? & ? & ? & ? & ? & _ & _ & _ & _ & _ & ->).
    reflexivity.
Qed.

End AuthFacts.

Section ExpiryFacts.

Lemma wrap64_small (z : Z) : - 2 ^ 63 <= z < 2 ^ 63 -> wrap64 z = z.
Proof. intros H. unfold wrap64. rewrite Z.mod_small; lia. Qed.

(** As long as the product does not leave the 64 bits, the delay is
    [expires_in - 60] seconds. *)
Lemma renewalDelay_exact (e : Z) :
  - 9223372036 <= e - 60 <= 9223372036 ->
  Auth.renewalDelay e = (e - 60) * Second.
Proof.
  intros H. unfold Auth.renewalDelay, Second.
  rewrite (wrap64_small (e - 60)) by lia.
  apply wrap64_small. lia.
Qed.

End ExpiryFacts.

(** C2: with a token in the cache and the clock strictly before its expiry,
    [GetAccessToken] returns that token and leaves the service and the
    world, hence the requests sent, as they were.  So a second call within
    the expiry of the token a first call returned gives the same token and
    sends nothing. *)
Theorem GetAccessToken_cache_hit {rt : Runtime} {dec : Auth.Decoders}
    (s : Auth.AuthService) (product : string) (w : World) :
  Auth.accessToken s <> "" ->
  clock w < Auth.tokenExpiry s ->
  Auth.GetAccessToken s product w = ((inr (Auth.accessToken s), s), w)
  /\ (forall s0 product0 w0 w1 tok,
        Auth.GetAccessToken s0 product0 w0 = ((inr tok, s), w1) ->
        Auth.GetAccessToken s product w = ((inr tok, s), w)
        /\ sent (snd (Auth.GetAccessToken s product w)) = sent w).
Proof.
  intros Htok Hnow.
  assert (Hhit : Auth.GetAccessToken s product w = ((inr (Auth.accessToken s), s), w)).
  { apply GetAccessToken_cached. apply cacheValid_true. now split. }
  split; [exact Hhit|].
  intros s0 product0 w0 w1 tok Hfirst.
  apply GetAccessToken_returns_cached in Hfirst as <-.
  rewrite Hhit. now split.
Qed.

(** A first call in production fetches "T", valid for an hour; the second
    call comes one second later. *)
Lemma GetAccessToken_cache_hit_witness :
  let first := Auth.GetAccessToken (rt := Double.runtime) (dec := Double.decoders)
                 (Double.service Double.production) "collection"
                 (Double.world 0 [Double.reply 200 (Double.tokenDocument "T" 3600)]) in
  let s := snd (fst first) in
  let w := mkWorld (clock (snd first) + Second) [] (sent (snd first)) [] in
  Auth.GetAccessToken (rt := Double.runtime) (dec := Double.decoders) s "collection" w
  = ((inr "T", s), w).
Proof.
  intros first s w.
  refine (proj1 (GetAccessToken_cache_hit (rt := Double.runtime) (dec := Double.decoders)
                   s "collection" w _ _)).
  - vm_compute. discriminate.
  - vm_compute. reflexivity.
Defined.

(** C1, as the specification states it, fails: a collection token is
    fetched and cached for an hour; the call for "disbursement" that follows
    finds the cache valid, returns the collection token "C", leaves the
    cache as it is and sends nothing, although the network had the
    disbursement token "D" ready. *)
Lemma alternating_products_keep_cached_token :
  let first := Auth.GetAccessToken (rt := Double.runtime) (dec := Double.decoders)
                 (Double.service Double.production) "collection"
                 (Double.world 0 [Double.reply 200 (Double.tokenDocument "C" 3600);
                                  Double.reply 200 (Double.tokenDocument "D" 3600)]) in
  let second := Auth.GetAccessToken (rt := Double.runtime) (dec := Double.decoders)
                  (snd (fst first)) "disbursement" (snd first) in
  fst (fst first) = inr "C"
  /\ fst (fst second) = inr "C"
  /\ snd (fst second) = snd (fst first)
  /\ Auth.accessToken (snd (fst second)) = "C"
  /\ sent (snd second) = sent (snd first)
  /\ replies (snd second) = [Double.reply 200 (Double.tokenDocument "D" 3600)].
Proof. vm_compute. repeat split. Qed.

(** C1, amended: the service has one token field for both products.  While
    the token in it is valid, a call for either product returns it and
    changes nothing.  When it is not (empty or expired), a call that
    succeeds has sent the token request of its product last and has put the
    token it returns in the field, in place of the one held before. *)
Theorem GetAccessToken_shared_cache {rt : Runtime} {dec : Auth.Decoders}
    (s : Auth.AuthService) (product : string) (w : World) :
  (Auth.cacheValid s (clock w) = true ->
     Auth.GetAccessToken s product w = ((inr (Auth.accessToken s), s), w))
  /\ (Auth.cacheValid s (clock w) = false ->
      forall tok s' w',
        Auth.GetAccessToken s product w = ((inr tok, s'), w') ->
        Auth.accessToken s' = tok
        /\ (product = "collection" \/ product = "disbursement")
        /\ exists h, last (sent w') = Some h
             /\ URL h = "https://" +:+ Cfg.Host (Dispatch.clientConfig (Auth.client s))
                        +:+ "/" +:+ product +:+ "/token/").
Proof.
  split; [apply GetAccessToken_cached|].
  intros Hv tok s' w' H.
  rewrite (GetAccessToken_uncached _ _ _ Hv) in H.
  apply fetchToken_success in H
    as (w1 & tokenPath & key & apiUser & apiKey & written & _ & _ & Hroute & Hd & _ & ->).
  apply productRoute_product in Hroute as [Hprod ->].
  apply DoRequest_ok in Hd as (rp & resp & h & _ & _ & Hsent & Hurl & _).
  repeat split; [exact Hprod|].
  exists h. split; [rewrite Hsent; apply last_snoc | exact Hurl].
Qed.

(** The collection token "C" has expired when the call for "disbursement"
    comes: "D" is fetched and replaces it. *)
Lemma GetAccessToken_shared_cache_witness :
  let s := Auth.mkAuthService (Dispatch.NewClient Double.production) Double.production
             "C" (3540 * Second) in
  let w := Double.world (3600 * Second) [Double.reply 200 (Double.tokenDocument "D" 3600)] in
  let second := Auth.GetAccessToken (rt := Double.runtime) (dec := Double.decoders)
                  s "disbursement" w in
  fst (fst second) = inr "D" /\ Auth.accessToken (snd (fst second)) = "D".
Proof.
  intros s w second. split; [vm_compute; reflexivity|].
  refine (proj1 (proj2 (GetAccessToken_shared_cache (rt := Double.runtime)
                          (dec := Double.decoders) s "disbursement" w)
                   _ "D" (snd (fst second)) (snd second) _)).
  - vm_compute. reflexivity.
  - vm_compute. reflexivity.
Defined.




(** C6, as the specification states it, fails for some [expires_in] below
    60: with [expires_in = -9223371977] the 64-bit product
    [(expires_in - 60) * 1000000000] wraps round to a positive duration of
    some 292 years, the expiry lies in the future, and a call one hour
    later is served from the cache without any request. *)
Lemma wrapped_expiry_is_in_the_future :
  let first := Auth.GetAccessToken (rt := Double.runtime) (dec := Double.decoders)
                 (Double.service Double.production) "collection"
                 (Double.world 0 [Double.reply 200
                                    (Double.tokenDocument "T" (- 9223371977))]) in
  let s := snd (fst first) in
  let later := Double.world (clock (snd first) + 3600 * Second) [] in
  let second := Auth.GetAccessToken (rt := Double.runtime) (dec := Double.decoders)
                  s "collection" later in
  - 9223371977 <= 60
  /\ fst (fst first) = inr "T"
  /\ Auth.renewalDelay (- 9223371977) = 9223372036709551616
  /\ clock (snd first) < Auth.tokenExpiry s
  /\ second = ((inr "T", s), later)
  /\ second <> Auth.fetchToken (rt := Double.runtime) (dec := Double.decoders)
                 s "collection" later.
Proof. vm_compute. repeat split; discriminate. Qed.

(** C6, amended: after a token exchange that succeeds, the token returned
    is that of the answer and the expiry is the clock read after the answer
    plus [(expires_in - 60) * 1000000000] nanoseconds in 64-bit arithmetic.
    When [expires_in - 60] is between -9223372036 and 9223372036 the product
    does not wrap and the expiry is the clock plus [expires_in - 60]
    seconds: the clock plus 3540 seconds for [expires_in = 3600], and, for
    [expires_in <= 60] in that range, an instant that is not after the
    clock, so that any later call goes past the cache test and fetches
    again: where no provisioning is called for and the token request can be
    built, it sends that request. *)
Theorem GetAccessToken_renewal_expiry {rt : Runtime} {dec : Auth.Decoders}
    (s s' : Auth.AuthService) (product tok : string) (w w' : World) :
  Auth.cacheValid s (clock w) = false ->
  Auth.GetAccessToken s product w = ((inr tok, s'), w') ->
  exists pre rp resp tr,
    replies w = (pre ++ rp :: replies w')%list
    /\ answer rp = inr resp
    /\ (if StatusCode resp =? 204 then tr = Auth.zeroTokenResponse
        else Auth.decodeTokenResponse (RespBody resp) = inr tr)
    /\ tok = Auth.AccessToken tr
    /\ Auth.tokenExpiry s' = clock w' + Auth.renewalDelay (Auth.ExpiresIn tr)
    /\ (- 9223372036 <= Auth.ExpiresIn tr - 60 <= 9223372036 ->
          Auth.tokenExpiry s' = clock w' + (Auth.ExpiresIn tr - 60) * Second)
    /\ (Auth.ExpiresIn tr = 3600 -> Auth.tokenExpiry s' = clock w' + 3540 * Second)
    /\ (- 9223372036 <= Auth.ExpiresIn tr - 60 <= 0 ->
          Auth.tokenExpiry s' <= clock w'
          /\ forall product2 w2, clock w' <= clock w2 ->
               Auth.GetAccessToken s' product2 w2 = Auth.fetchToken s' product2 w2
               /\ (Auth.provisions (Auth.config s') = false ->
                   product2 = "collection" \/ product2 = "disbursement" ->
                   http_NewRequest "POST"
                     ("https://" +:+ Cfg.Host (Dispatch.clientConfig (Auth.client s'))
                      +:+ "/" +:+ product2 +:+ "/token/") = None ->
                   exists h,
                     sent (snd (Auth.GetAccessToken s' product2 w2)) = (sent w2 ++ [h])%list
                     /\ URL h = "https://" +:+ Cfg.Host (Dispatch.clientConfig (Auth.client s'))
                                +:+ "/" +:+ product2 +:+ "/token/")).
Proof.
  intros Hv H.
  rewrite (GetAccessToken_uncached _ _ _ Hv) in H.
  apply fetchToken_success in H
    as (w1 & tokenPath & key & apiUser & apiKey & written
        & [pre Hpre] & _ & _ & Hd & Htok & ->).
  apply DoRequest_ok in Hd as (rp & resp & h & Hr & Ha & _ & _ & _ & _ & Hdec).
  set (tr := default Auth.zeroTokenResponse written) in *.
  exists pre, rp, resp, tr.
  assert (Hexact : - 9223372036 <= Auth.ExpiresIn tr - 60 <= 9223372036 ->
            clock w' + Auth.renewalDelay (Auth.ExpiresIn tr)
            = clock w' + (Auth.ExpiresIn tr - 60) * Second).
  { intros Hrange. now rewrite renewalDelay_exact. }
  cbn [Auth.tokenExpiry]. unfold Add.
  split; [now rewrite Hpre, Hr|]. split; [exact Ha|].
  split.
  { destruct Hdec as [[H204 ->]|[Hn204 (x & Hx & ->)]].
    - apply Z.eqb_eq in H204. now rewrite H204.
    - apply Z.eqb_neq in Hn204. now rewrite Hn204. }
  split; [exact Htok|]. split; [reflexivity|]. split; [exact Hexact|].
  split.
  { intros He. rewrite Hexact by lia. rewrite He. reflexivity. }
  intros Hrange. rewrite Hexact by lia.
  assert (Hpast : clock w' + (Auth.ExpiresIn tr - 60) * Second <= clock w').
  { unfold Second. lia. }
  split; [exact Hpast|].
  intros product2 w2 Hlater.
  match goal with
  | |- Auth.GetAccessToken ?t _ _ = _ /\ _ =>
      assert (Hmiss : Auth.GetAccessToken t product2 w2 = Auth.fetchToken t product2 w2)
  end.
  { apply GetAccessToken_uncached.
    unfold Auth.cacheValid, Before. cbn [Auth.tokenExpiry Auth.accessToken]. unfold Add.
    apply andb_false_iff. right. apply Z.ltb_ge. lia. }
  split; [exact Hmiss|].
  intros Hprov Hprod Hbuild. rewrite Hmiss.
  now apply fetchToken_sends.
Qed.

(** A token valid for 3600 seconds, fetched in production: the expiry is
    3540 seconds after the clock read when the answer has come. *)
Lemma GetAccessToken_renewal_expiry_witness :
  let w := Double.world 0 [Double.reply 200 (Double.tokenDocument "T" 3600)] in
  let first := Auth.GetAccessToken (rt := Double.runtime) (dec := Double.decoders)
                 (Double.service Double.production) "collection" w in
  exists tr,
    "T" = Auth.AccessToken tr
    /\ Auth.tokenExpiry (snd (fst first))
       = clock (snd first) + Auth.renewalDelay (Auth.ExpiresIn tr).
Proof.
  intros w first.
  destruct (GetAccessToken_renewal_expiry (rt := Double.runtime) (dec := Double.decoders)
              (Double.service Double.production) (snd (fst first)) "collection" "T"
              w (snd first) eq_refl eq_refl)
    as (pre & rp & resp & tr & _ & _ & _ & Htok & Hexp & _).
  exists tr. split; [exact Htok | exact Hexp].
Defined.

(** ** The operations that take a phone number *)

Section ServiceFacts.
Import Dispatch Auth Models Services.
Context {rt : Runtime} {dec : Decoders} {srt : ServiceRuntime}.

(** A [DoRequest] adds nothing to the requests sent, or the one request
    built from its descriptor. *)
Lemma DoRequest_sent {T : Type} (c : Client) (req : Request)
    (result : option (Decoder T)) (w w' : World) (r : error + option T) :
  DoRequest c req result w = (r, w') ->
  sent w' = sent w
  \/ exists h, sent w' = (sent w ++ [h])%list
       /\ HTTPMethod h = Method req
       /\ URL h = requestURL c req
       /\ marshalBody (Body req) = inr (Payload h).
Proof.
  destruct (marshalBody (Body req)) as [e|payload] eqn:Hm.
  { destruct (DoRequest_not_dispatched c req result w) as [err ->]; [left; now exists e|].
    intros [= _ <-]. now left. }
  destruct (http_NewRequest (Method req) (requestURL c req)) as [e|] eqn:Hn.
  { destruct (DoRequest_not_dispatched c req result w) as [err ->]; [right; now exists e|].
    intros [= _ <-]. now left. }
  rewrite (DoRequest_dispatched c req result w payload Hm Hn). cbv zeta.
  unfold Do. destruct (replies w) as [|rp rest];
    intros [= _ <-]; right; eexists; cbn; repeat split.
Qed.

Lemma orNewUUID_sent (given id : string) (w w' : World) :
  orNewUUID given w = (id, w') -> sent w' = sent w.
Proof.
  unfold orNewUUID. destruct (isEmpty given).
  - intros H. now apply NewUUID_world in H.
  - now intros [= _ <-].
Qed.

Lemma formatPhoneNumber_normalized (phone : string) :
  normalized (Phone.formatPhoneNumber phone).
Proof.
  split; [apply formatPhoneNumber_allDigits | apply formatPhoneNumber_prefix].
Qed.

(** Past the token, [RequestToPay] sends at most one request, whose payer
    is the normalised phone number. *)
Lemma RequestToPay_sends (s : CollectionService) (auth : AuthService) (phone : string)
    (amount : float64) (opts : option Options) (w : World) :
  let tokenWorld := snd (GetAccessToken auth "collection" w) in
  let w' := snd (RequestToPay s auth phone amount opts w) in
  sent w' = sent tokenWorld
  \/ exists h p, sent w' = (sent tokenWorld ++ [h])%list
       /\ URL h = "https://" +:+ Cfg.Host (clientConfig (colClient s))
                  +:+ "/collection/v1_0/requesttopay"
       /\ marshalBody (Some (bodyOfRequestToPay p)) = inr (Payload h)
       /\ Payer p = mkPartyInfo MSISDN (Phone.formatPhoneNumber phone).
Proof.
  cbv zeta. unfold RequestToPay, bind.
  destruct (GetAccessToken auth "collection" w) as [[[err|token] auth'] w1]; [now left|].
  cbn [snd].
  destruct (orNewUUID _ w1) as [referenceID w2] eqn:H2.
  destruct (orNewUUID _ w2) as [externalID w3] eqn:H3.
  apply orNewUUID_sent in H2, H3. rewrite <- H2, <- H3.
  destruct (DoRequest _ _ _ w3) as [r w4] eqn:Hd.
  apply DoRequest_sent in Hd as [Hsame|(h & Hsent & _ & Hurl & Hbody)].
  - left. now destruct r.
  - right. exists h. eexists. destruct r; cbn [snd];
      (split; [exact Hsent|]; split; [exact Hurl|]; split; [exact Hbody | reflexivity]).
Qed.

(** The same for [Transfer] and its payee. *)
Lemma Transfer_sends (s : DisbursementService) (auth : AuthService) (phone : string)
    (amount : float64) (opts : option Options) (w : World) :
  let tokenWorld := snd (GetAccessToken auth "disbursement" w) in
  let w' := snd (Transfer s auth phone amount opts w) in
  sent w' = sent tokenWorld
  \/ exists h p, sent w' = (sent tokenWorld ++ [h])%list
       /\ URL h = "https://" +:+ Cfg.Host (clientConfig (disClient s))
                  +:+ "/disbursement/v1_0/transfer"
       /\ marshalBody (Some (bodyOfTransfer p)) = inr (Payload h)
       /\ Payee p = mkPartyInfo MSISDN (Phone.formatPhoneNumber phone).
Proof.
  cbv zeta. unfold Transfer, bind.
  destruct (GetAccessToken auth "disbursement" w) as [[[err|token] auth'] w1]; [now left|].
  cbn [snd].
  destruct (orNewUUID _ w1) as [referenceID w2] eqn:H2.
  destruct (orNewUUID _ w2) as [externalID w3] eqn:H3.
  apply orNewUUID_sent in H2, H3. rewrite <- H2, <- H3.
  destruct (DoRequest _ _ _ w3) as [r w4] eqn:Hd.
  apply DoRequest_sent in Hd as [Hsame|(h & Hsent & _ & Hurl & Hbody)].
  - left. now destruct r.
  - right. exists h. eexists. destruct r; cbn [snd];
      (split; [exact Hsent|]; split; [exact Hurl|]; split; [exact Hbody | reflexivity]).
Qed.

(** Past the token, the account-holder query sends at most one request,
    whose path names the normalised phone number. *)
Lemma accountHolderInfo_sends (product : string) (c : Client) (config : Cfg.Config)
    (key : string) (auth : AuthService) (phone : string) (w : World) :
  let tokenWorld := snd (GetAccessToken auth product w) in
  let w' := snd (accountHolderInfo product c config key auth phone w) in
  sent w' = sent tokenWorld
  \/ exists h, sent w' = (sent tokenWorld ++ [h])%list
       /\ URL h = "https://" +:+ Cfg.Host (clientConfig c) +:+ "/" +:+ product
                  +:+ "/v1_0/accountholder/MSISDN/" +:+ Phone.formatPhoneNumber phone
                  +:+ "/basicuserinfo".
Proof.
  cbv zeta. unfold accountHolderInfo, bind.
  destruct (GetAccessToken auth product w) as [[[err|token] auth'] w1]; [now left|].
  cbn [snd].
  destruct (DoRequest _ _ _ w1) as [r w2] eqn:Hd.
  apply DoRequest_sent in Hd as [Hsame|(h & Hsent & _ & Hurl & _)].
  - left. now destruct r.
  - right. exists h. destruct r; cbn [snd]; (split; [exact Hsent | exact Hurl]).
Qed.

End ServiceFacts.

(** A run from end to end: the token endpoint answers with "T", valid for
    120 seconds, the request-to-pay endpoint with 202 and an empty body;
    [RequestToPay] returns the reference drawn for the transaction. *)
Example RequestToPay_end_to_end :
  let s := Services.mkCollectionService (Dispatch.NewClient Double.production)
             Double.production in
  let w := mkWorld 0 [Double.reply 200 (Double.tokenDocument "T" 120); Double.reply 202 ""]
             [] ["ref-1"; "ext-1"] in
  let run := Services.RequestToPay (rt := Double.runtime) (dec := Double.decoders)
               (srt := Double.services) s (Double.service Double.production)
               "0733123454" 10 None w in
  fst (fst run) = inr "ref-1"
  /\ map URL (sent (snd run)) =
       ["https://proxy.momoapi.mtn.com/collection/token/";
        "https://proxy.momoapi.mtn.com/collection/v1_0/requesttopay"]
  /\ (Payload <$> last (sent (snd run))) =
       Some (Some (Double.renderRequestToPay
                     (Models.mkRequestToPayPayload "10.00" "LRD" "ext-1"
                        (Models.mkPartyInfo Models.MSISDN "231733123454")
                        "Payment request" "Thank you for your payment"))).
Proof. vm_compute. repeat split. Qed.

(** C10: [formatPhoneNumber] is idempotent: its output is made of digits
    only and starts with "231" (the empty input gives "231"), and such a
    string is left as it is.  So the party identifier of the one request
    that [RequestToPay], [Transfer] and the two [GetAccountHolderInfo] send
    after the token requests is made of digits only and starts with "231". *)
Theorem formatPhoneNumber_idempotent {rt : Runtime} {dec : Auth.Decoders}
    {srt : Services.ServiceRuntime} :
  (forall phone,
     Phone.formatPhoneNumber (Phone.formatPhoneNumber phone) = Phone.formatPhoneNumber phone
     /\ Phone.allDigits (Phone.formatPhoneNumber phone) = true
     /\ Phone.HasPrefix (Phone.formatPhoneNumber phone) "231" = true)
  /\ Phone.formatPhoneNumber "" = "231"
  /\ (forall s auth phone amount opts w,
        let tokenWorld := snd (Auth.GetAccessToken auth "collection" w) in
        let w' := snd (Services.RequestToPay s auth phone amount opts w) in
        sent w' = sent tokenWorld
        \/ exists h p, sent w' = (sent tokenWorld ++ [h])%list
             /\ Dispatch.marshalBody (Some (Services.bodyOfRequestToPay p)) = inr (Payload h)
             /\ Models.PartyIdType (Models.Payer p) = Models.MSISDN
             /\ Services.normalized (Models.PartyID (Models.Payer p)))
  /\ (forall s auth phone amount opts w,
        let tokenWorld := snd (Auth.GetAccessToken auth "disbursement" w) in
        let w' := snd (Services.Transfer s auth phone amount opts w) in
        sent w' = sent tokenWorld
        \/ exists h p, sent w' = (sent tokenWorld ++ [h])%list
             /\ Dispatch.marshalBody (Some (Services.bodyOfTransfer p)) = inr (Payload h)
             /\ Models.PartyIdType (Models.Payee p) = Models.MSISDN
             /\ Services.normalized (Models.PartyID (Models.Payee p)))
  /\ (forall s auth phone w,
        let tokenWorld := snd (Auth.GetAccessToken auth "collection" w) in
        let w' := snd (Services.CollectionGetAccountHolderInfo s auth phone w) in
        sent w' = sent tokenWorld
        \/ exists h id, sent w' = (sent tokenWorld ++ [h])%list
             /\ URL h = "https://" +:+ Cfg.Host (Dispatch.clientConfig (Services.colClient s))
                        +:+ "/collection/v1_0/accountholder/MSISDN/" +:+ id
                        +:+ "/basicuserinfo"
             /\ Services.normalized id)
  /\ (forall s auth phone w,
        let tokenWorld := snd (Auth.GetAccessToken auth "disbursement" w) in
        let w' := snd (Services.DisbursementGetAccountHolderInfo s auth phone w) in
        sent w' = sent tokenWorld
        \/ exists h id, sent w' = (sent tokenWorld ++ [h])%list
             /\ URL h = "https://" +:+ Cfg.Host (Dispatch.clientConfig (Services.disClient s))
                        +:+ "/disbursement/v1_0/accountholder/MSISDN/" +:+ id
                        +:+ "/basicuserinfo"
             /\ Services.normalized id).
Proof.
  split; [|split; [reflexivity|]].
  { intros phone.
    pose proof (formatPhoneNumber_allDigits phone) as Hd.
    pose proof (formatPhoneNumber_prefix phone) as Hp.
    repeat split; [|exact Hd|exact Hp].
    destruct (prefix_countryCode _ Hp) as [t Ht].
    unfold Phone.formatPhoneNumber at 1.
    rewrite strings_Map_digits, (keepDigits_fixed _ Hd).
    rewrite Ht in Hp |- *. rewrite Hp. reflexivity. }
  split; [|split; [|split]].
  - intros s auth phone amount opts w.
    destruct (RequestToPay_sends s auth phone amount opts w)
      as [H|(h & p & Hsent & _ & Hbody & Hpayer)]; [now left|].
    right. exists h, p. rewrite Hpayer.
    repeat split; try assumption; apply formatPhoneNumber_normalized.
  - intros s auth phone amount opts w.
    destruct (Transfer_sends s auth phone amount opts w)
      as [H|(h & p & Hsent & _ & Hbody & Hpayee)]; [now left|].
    right. exists h, p. rewrite Hpayee.
    repeat split; try assumption; apply formatPhoneNumber_normalized.
  - intros s auth phone w.
    destruct (accountHolderInfo_sends "collection" (Services.colClient s)
                (Services.colConfig s) (Cfg.SubscriptionKey (Services.colConfig s))
                auth phone w) as [H|(h & Hsent & Hurl)]; [now left|].
    right. exists h, (Phone.formatPhoneNumber phone).
    repeat split; try assumption; apply formatPhoneNumber_normalized.
  - intros s auth phone w.
    destruct (accountHolderInfo_sends "disbursement" (Services.disClient s)
                (Services.disConfig s) (Cfg.DisbursementKey (Services.disConfig s))
                auth phone w) as [H|(h & Hsent & Hurl)]; [now left|].
    right. exists h, (Phone.formatPhoneNumber phone).
    repeat split; try assumption; apply formatPhoneNumber_normalized.
Qed.

(** * More of the package *)

(** ** Configuration: [Validate], [FromEnv], [NewConfig], [InitFromEnv] *)

Section MoreConfigFacts.
Import Cfg.

Lemma applyOptions_app (opts more : list ConfigOption) (c : Config) :
  applyOptions (opts ++ more) c = applyOptions more (applyOptions opts c).
Proof. unfold applyOptions. apply fold_left_app. Qed.

Lemma applyOptions_keeps_currency (opts : list ConfigOption) :
  (forall o, In o opts -> forall c, Currency (o c) = Currency c) ->
  forall c, Currency (applyOptions opts c) = Currency c.
Proof.
  induction opts as [|o opts IH]; intros Hkeep c; [reflexivity|].
  cbn. change (fold_left (fun c opt => opt c) opts (o c)) with (applyOptions opts (o c)).
  rewrite IH.
  - apply Hkeep. now left.
  - intros o' Hin. apply Hkeep. now right.
Qed.

End MoreConfigFacts.

(** X1: a configuration that [Validate] has accepted is accepted again, and
    left as it is: validating twice changes nothing more. *)
Theorem Validate_stable (c c' : Cfg.Config) :
  Cfg.Validate c = (c', None) -> Cfg.Validate c' = (c', None).
Proof.
  intros H. apply Validate_ok in H as (Hs & Ht & Hh & Hp & -> & Hc).
  destruct c as [sk dk te cb au ak en cu ho].
  unfold Cfg.Validate, isEmpty in *. cbn in *.
  destruct (String.eqb dk "") eqn:Hd; cbn; rewrite ?Hs, ?Ht, ?Hh, ?Hp, ?Hd, ?Hc; cbn;
    rewrite ?Hc; reflexivity.
Qed.

Lemma Validate_stable_witness :
  let c := Cfg.applyOptions [Cfg.WithSubscriptionKey "sub"] (Cfg.defaults Cfg.Sandbox) in
  Cfg.Validate (fst (Cfg.Validate c)) = (fst (Cfg.Validate c), None).
Proof.
  intros c. exact (Validate_stable c (fst (Cfg.Validate c)) eq_refl).
Defined.

(** X2: whatever its outcome, [Validate] changes no field but the
    disbursement key; with one of the first four errors it changes nothing,
    and when it returns "currency is required" it has already put a
    disbursement key in the configuration it was called on. *)
Theorem Validate_writes_only_disbursement_key (c : Cfg.Config) :
  Cfg.setDisbursementKey (Cfg.DisbursementKey c) (fst (Cfg.Validate c)) = c
  /\ (forall text, snd (Cfg.Validate c) = Some (errorString text) ->
        text <> "currency is required" -> fst (Cfg.Validate c) = c)
  /\ (snd (Cfg.Validate c) = Some (errorString "currency is required") ->
        Cfg.DisbursementKey (fst (Cfg.Validate c)) <> ""
        /\ (Cfg.DisbursementKey c = "" ->
              Cfg.DisbursementKey (fst (Cfg.Validate c)) = Cfg.SubscriptionKey c)).
Proof.
  destruct c as [sk dk te cb au ak en cu ho]. unfold Cfg.Validate, isEmpty.
  cbn [Cfg.SubscriptionKey Cfg.DisbursementKey Cfg.TargetEnvironment Cfg.APIUser
       Cfg.APIKey Cfg.Environment Cfg.Currency Cfg.Host].
  destruct (String.eqb sk "") eqn:Hs; [cbn; repeat split; try discriminate; reflexivity|].
  destruct (String.eqb te "") eqn:Ht; [cbn; repeat split; try discriminate; reflexivity|].
  destruct (String.eqb ho "") eqn:Hh; [cbn; repeat split; try discriminate; reflexivity|].
  destruct (String.eqb en Cfg.Production && String.eqb au "" && String.eqb ak "") eqn:Hp;
    [cbn; repeat split; try discriminate; reflexivity|].
  apply String.eqb_neq in Hs.
  destruct (String.eqb dk "") eqn:Hd;
    cbn [Cfg.setDisbursementKey Cfg.SubscriptionKey Cfg.DisbursementKey
         Cfg.TargetEnvironment Cfg.CallbackHost Cfg.APIUser Cfg.APIKey
         Cfg.Environment Cfg.Currency Cfg.Host];
    destruct (String.eqb cu ""); cbn.
  - apply String.eqb_eq in Hd as ->.
    repeat split; try discriminate; try reflexivity; try assumption.
    all: intros text [= <-] Hne; now destruct Hne.
  - apply String.eqb_eq in Hd as ->. repeat split; try discriminate; reflexivity.
  - apply String.eqb_neq in Hd.
    repeat split; try discriminate; try reflexivity; try assumption.
    all: first [ intros text [= <-] Hne; now destruct Hne
               | intros ->; now destruct Hd ].
  - repeat split; try discriminate; reflexivity.
Qed.

(** A production configuration with no disbursement key and no currency. *)
Lemma Validate_writes_only_disbursement_key_witness :
  let c := Cfg.mkConfig "sub" "" "mtnliberia" "" "user" "key" Cfg.Production ""
             "proxy.momoapi.mtn.com" in
  Cfg.DisbursementKey (fst (Cfg.Validate c)) = "sub".
Proof.
  intros c.
  exact (proj2 (proj2 (proj2 (Validate_writes_only_disbursement_key c)) eq_refl) eq_refl).
Defined.

Section FromEnvFacts.
Import Cfg.

Lemma fromVar_other {A : Type} (p : Config -> A) (Getenv : string -> string)
    (name : string) (set : string -> Config -> Config) (c : Config) :
  (forall v c, p (set v c) = p c) -> p (fromVar Getenv name set c) = p c.
Proof. intros H. unfold fromVar. destruct (negb _); [apply H | reflexivity]. Qed.

Lemma fromVar_own (p : Config -> string) (Getenv : string -> string)
    (name : string) (set : string -> Config -> Config) (c : Config) :
  (forall v c, p (set v c) = v) ->
  p (fromVar Getenv name set c) = fromEnvOr Getenv name (p c).
Proof.
  intros H. unfold fromVar, fromEnvOr.
  destruct (isEmpty (Getenv name)); cbn [negb]; [reflexivity | apply H].
Qed.

Ltac env_field p :=
  repeat (rewrite (fromVar_other p) by (intros; reflexivity));
  try (rewrite (fromVar_own p) by (intros; reflexivity));
  repeat (rewrite (fromVar_other p) by (intros; reflexivity));
  reflexivity.

Lemma FromEnv_spec (Getenv : string -> string) (c : Config) :
  let c' := FromEnv Getenv c in
  SubscriptionKey c' = fromEnvOr Getenv "MOMO_SUBSCRIPTION_KEY" (SubscriptionKey c)
  /\ DisbursementKey c' = fromEnvOr Getenv "MOMO_DISBURSEMENT_KEY" (DisbursementKey c)
  /\ TargetEnvironment c' = fromEnvOr Getenv "MOMO_TARGET_ENVIRONMENT" (TargetEnvironment c)
  /\ CallbackHost c' = fromEnvOr Getenv "MOMO_CALLBACK_HOST" (CallbackHost c)
  /\ Host c' = fromEnvOr Getenv "MOMO_HOST" (Host c)
  /\ APIUser c' = fromEnvOr Getenv "MOMO_API_USER" (APIUser c)
  /\ APIKey c' = fromEnvOr Getenv "MOMO_API_KEY" (APIKey c)
  /\ Currency c' = fromEnvOr Getenv "MOMO_CURRENCY" (Currency c)
  /\ Environment c' = Environment c.
Proof.
  unfold FromEnv. cbv zeta. repeat apply conj.
  - env_field SubscriptionKey.
  - env_field DisbursementKey.
  - env_field TargetEnvironment.
  - env_field CallbackHost.
  - env_field Host.
  - env_field APIUser.
  - env_field APIKey.
  - env_field Currency.
  - env_field Environment.
Qed.

Lemma fromEnvOr_nonempty (Getenv : string -> string) (name old : string) :
  isEmpty old = false -> isEmpty (fromEnvOr Getenv name old) = false.
Proof.
  intros H. unfold fromEnvOr.
  destruct (isEmpty (Getenv name)) eqn:E; [exact H | exact E].
Qed.

End FromEnvFacts.

(** X3: [FromEnv] sets each field to the value of its own variable when
    that variable is set and not empty, and leaves the field as it was
    otherwise: it never clears a field, and it does not touch the
    environment selector. *)
Theorem FromEnv_overrides_set_variables (Getenv : string -> string) (c : Cfg.Config) :
  let c' := Cfg.FromEnv Getenv c in
  Cfg.SubscriptionKey c' = fromEnvOr Getenv "MOMO_SUBSCRIPTION_KEY" (Cfg.SubscriptionKey c)
  /\ Cfg.DisbursementKey c' = fromEnvOr Getenv "MOMO_DISBURSEMENT_KEY" (Cfg.DisbursementKey c)
  /\ Cfg.TargetEnvironment c'
     = fromEnvOr Getenv "MOMO_TARGET_ENVIRONMENT" (Cfg.TargetEnvironment c)
  /\ Cfg.CallbackHost c' = fromEnvOr Getenv "MOMO_CALLBACK_HOST" (Cfg.CallbackHost c)
  /\ Cfg.Host c' = fromEnvOr Getenv "MOMO_HOST" (Cfg.Host c)
  /\ Cfg.APIUser c' = fromEnvOr Getenv "MOMO_API_USER" (Cfg.APIUser c)
  /\ Cfg.APIKey c' = fromEnvOr Getenv "MOMO_API_KEY" (Cfg.APIKey c)
  /\ Cfg.Currency c' = fromEnvOr Getenv "MOMO_CURRENCY" (Cfg.Currency c)
  /\ Cfg.Environment c' = Cfg.Environment c.
Proof. apply FromEnv_spec. Qed.

(** X4: [InitFromEnv] for the sandbox needs the subscription key and
    nothing else from the environment.  Without MOMO_SUBSCRIPTION_KEY it
    fails with "subscription key is required" and returns no client; with
    it, it returns a client whose configuration has the variables that are
    set and the sandbox defaults for the others (host, target environment,
    currency EUR, the subscription key as disbursement key), and whose
    authentication service holds that configuration and no token. *)
Theorem InitFromEnv_sandbox (Getenv : string -> string) :
  (Getenv "MOMO_SUBSCRIPTION_KEY" = "" ->
     Top.InitFromEnv Getenv Cfg.Sandbox
     = (None, Some (errorString "subscription key is required")))
  /\ (Getenv "MOMO_SUBSCRIPTION_KEY" <> "" ->
      exists m,
        Top.InitFromEnv Getenv Cfg.Sandbox = (Some m, None)
        /\ Cfg.SubscriptionKey (Top.Config m) = Getenv "MOMO_SUBSCRIPTION_KEY"
        /\ Cfg.DisbursementKey (Top.Config m)
           = fromEnvOr Getenv "MOMO_DISBURSEMENT_KEY" (Getenv "MOMO_SUBSCRIPTION_KEY")
        /\ Cfg.Host (Top.Config m)
           = fromEnvOr Getenv "MOMO_HOST" "sandbox.momodeveloper.mtn.com"
        /\ Cfg.TargetEnvironment (Top.Config m)
           = fromEnvOr Getenv "MOMO_TARGET_ENVIRONMENT" "sandbox"
        /\ Cfg.Currency (Top.Config m) = fromEnvOr Getenv "MOMO_CURRENCY" "EUR"
        /\ Cfg.Environment (Top.Config m) = Cfg.Sandbox
        /\ Auth.config (Top.Auth m) = Top.Config m
        /\ Auth.accessToken (Top.Auth m) = "").
Proof.
  unfold Top.InitFromEnv, Cfg.NewConfig.
  change (Cfg.applyOptions [Cfg.FromEnv Getenv] (Cfg.defaults Cfg.Sandbox))
    with (Cfg.FromEnv Getenv (Cfg.defaults Cfg.Sandbox)).
  pose proof (FromEnv_spec Getenv (Cfg.defaults Cfg.Sandbox))
    as (Hsk & Hdk & Hte & _ & Hho & _ & _ & Hcu & Hen).
  cbv zeta in *.
  destruct (Cfg.FromEnv Getenv (Cfg.defaults Cfg.Sandbox))
    as [sk dk te cb au ak en cu ho].
  cbn in Hsk, Hdk, Hte, Hho, Hcu, Hen. subst sk dk te ho cu en.
  assert (Hte : isEmpty (fromEnvOr Getenv "MOMO_TARGET_ENVIRONMENT" "sandbox") = false)
    by now apply fromEnvOr_nonempty.
  assert (Hho : isEmpty (fromEnvOr Getenv "MOMO_HOST" "sandbox.momodeveloper.mtn.com") = false)
    by now apply fromEnvOr_nonempty.
  assert (Hcu : isEmpty (fromEnvOr Getenv "MOMO_CURRENCY" "EUR") = false)
    by now apply fromEnvOr_nonempty.
  unfold Cfg.Validate.
  cbn [Cfg.SubscriptionKey Cfg.DisbursementKey Cfg.TargetEnvironment Cfg.APIUser
       Cfg.APIKey Cfg.Environment Cfg.Currency Cfg.Host].
  split.
  - intros Hnone. unfold fromEnvOr at 1. rewrite Hnone. reflexivity.
  - intros Hsome. apply isEmpty_false in Hsome.
    assert (Hsk : fromEnvOr Getenv "MOMO_SUBSCRIPTION_KEY" "" = Getenv "MOMO_SUBSCRIPTION_KEY")
      by (unfold fromEnvOr; now rewrite Hsome).
    rewrite !Hsk, Hsome, Hte, Hho.
    change (String.eqb Cfg.Sandbox Cfg.Production) with false. cbn [andb].
    assert (Hdk : fromEnvOr Getenv "MOMO_DISBURSEMENT_KEY" ""
                  = if isEmpty (Getenv "MOMO_DISBURSEMENT_KEY") then ""
                    else Getenv "MOMO_DISBURSEMENT_KEY") by reflexivity.
    destruct (isEmpty (fromEnvOr Getenv "MOMO_DISBURSEMENT_KEY" "")) eqn:Hd;
      cbn [Cfg.setDisbursementKey Cfg.SubscriptionKey Cfg.DisbursementKey
           Cfg.TargetEnvironment Cfg.CallbackHost Cfg.APIUser Cfg.APIKey
           Cfg.Environment Cfg.Currency Cfg.Host];
      rewrite Hcu; eexists; (split; [reflexivity|]); cbn;
      repeat split; try reflexivity.
    + unfold fromEnvOr in Hd |- *.
      destruct (isEmpty (Getenv "MOMO_DISBURSEMENT_KEY")) eqn:E; [reflexivity|].
      congruence.
    + unfold fromEnvOr in Hd |- *.
      destruct (isEmpty (Getenv "MOMO_DISBURSEMENT_KEY")) eqn:E; [|reflexivity].
      discriminate Hd.
Qed.

(** Only the subscription key is in the environment. *)
Lemma InitFromEnv_sandbox_witness :
  let Getenv := fun name => if String.eqb name "MOMO_SUBSCRIPTION_KEY" then "sub" else "" in
  exists m,
    Top.InitFromEnv Getenv Cfg.Sandbox
    = (Some m, None)
    /\ Cfg.Host (Top.Config m) = "sandbox.momodeveloper.mtn.com".
Proof.
  intros Getenv.
  destruct (proj2 (InitFromEnv_sandbox Getenv))
    as (m & Hinit & _ & _ & Hhost & _); [discriminate|].
  exists m. split; [exact Hinit | exact Hhost].
Defined.

(** X5: in production the currency has no default: when no option sets the
    currency, [NewConfig] fails, whatever else the options provide. *)
Theorem NewConfig_production_needs_currency (opts : list Cfg.ConfigOption) :
  (forall o, In o opts -> forall c, Cfg.Currency (o c) = Cfg.Currency c) ->
  exists err, Cfg.NewConfig Cfg.Production opts = (None, Some err).
Proof.
  intros Hkeep. unfold Cfg.NewConfig.
  pose proof (applyOptions_keeps_currency opts Hkeep (Cfg.defaults Cfg.Production)) as Hcur.
  change (Cfg.Currency (Cfg.defaults Cfg.Production)) with "" in Hcur.
  destruct (Cfg.Validate (Cfg.applyOptions opts (Cfg.defaults Cfg.Production)))
    as [c' [err|]] eqn:E; [now exists err|].
  apply Validate_ok in E as (_ & _ & _ & _ & _ & Hc).
  rewrite Hcur in Hc. discriminate Hc.
Qed.

(** Every field but the currency is given. *)
Lemma NewConfig_production_needs_currency_witness :
  exists err,
    Cfg.NewConfig Cfg.Production
      [Cfg.WithSubscriptionKey "sub"; Cfg.WithDisbursementKey "dis";
       Cfg.WithTargetEnvironment "mtnliberia"; Cfg.WithHost "proxy.momoapi.mtn.com";
       Cfg.WithAPIUser "user"; Cfg.WithAPIKey "key"]
    = (None, Some err).
Proof.
  apply NewConfig_production_needs_currency.
  intros o Hin c.
  repeat (destruct Hin as [<-|Hin]; [reflexivity|]). destruct Hin.
Defined.

(** ** The dispatcher: what is sent, and when nothing is *)

Section MoreDispatchFacts.
Import Dispatch.
Context {rt : Runtime}.

(** [DoRequest] on a descriptor that can be marshalled and built, whatever
    the network does. *)
Lemma DoRequest_sends {T : Type} (c : Client) (req : Request)
    (result : option (Decoder T)) (w : World) (payload : option string) :
  marshalBody (Body req) = inr payload ->
  http_NewRequest (Method req) (requestURL c req) = None ->
  sent (snd (DoRequest c req result w)) = (sent w ++ [httpRequestOf c req payload])%list
  /\ replies (snd (DoRequest c req result w)) = tail (replies w)
  /\ uuids (snd (DoRequest c req result w)) = uuids w.
Proof.
  intros Hm Hn. rewrite (DoRequest_dispatched c req result w payload Hm Hn). cbv zeta.
  unfold Do. destruct (replies w) as [|rp rest]; cbn; repeat split.
Qed.

End MoreDispatchFacts.



(** X7: a descriptor whose body cannot be marshalled, or from which no
    request can be built, is never sent: [DoRequest] returns the error of
    the library, wrapped ("error marshaling request body: ...", "error
    creating HTTP request: ..."), and the world is as it was; no reply is
    used up. *)
Theorem DoRequest_unsendable {rt : Runtime} {T : Type} (c : Dispatch.Client)
    (req : Dispatch.Request) (result : option (Decoder T)) (w : World) :
  (forall b cause, Dispatch.Body req = Some b -> json_Marshal b = inl cause ->
     Dispatch.DoRequest c req result w
     = (inl (Errorf_w "error marshaling request body: " cause), w)
     /\ Unwrap (Errorf_w "error marshaling request body: " cause) = Some cause)
  /\ (forall payload cause,
        Dispatch.marshalBody (Dispatch.Body req) = inr payload ->
        http_NewRequest (Dispatch.Method req) (Dispatch.requestURL c req) = Some cause ->
        Dispatch.DoRequest c req result w
        = (inl (Errorf_w "error creating HTTP request: " cause), w)
        /\ Error (Errorf_w "error creating HTTP request: " cause)
           = "error creating HTTP request: " +:+ Error cause).
Proof.
  split.
  - intros b cause Hb Hm. unfold Dispatch.DoRequest, Dispatch.marshalBody.
    rewrite Hb, Hm. split; reflexivity.
  - intros payload cause Hm Hn. unfold Dispatch.DoRequest. rewrite Hm, Hn.
    split; reflexivity.
Qed.

(** The body "NaN" with the strict double, replies being there to take. *)
Lemma DoRequest_unsendable_witness :
  let w := Double.world 0 [Double.reply 200 ""] in
  Dispatch.DoRequest (rt := Strict.runtime) (T := unit)
    (Dispatch.NewClient Double.production)
    (Dispatch.mkRequest (rt := Strict.runtime) "POST" "/collection/v1_0/requesttopay"
       (Some "NaN") ∅ ∅) None w
  = (inl (Errorf_w "error marshaling request body: "
            (errorString "json: unsupported value: NaN")), w).
Proof.
  intros w.
  exact (proj1 (proj1 (DoRequest_unsendable (rt := Strict.runtime) (T := unit)
                         (Dispatch.NewClient Double.production)
                         (Dispatch.mkRequest (rt := Strict.runtime) "POST"
                            "/collection/v1_0/requesttopay" (Some "NaN") ∅ ∅) None w)
                  "NaN" (errorString "json: unsupported value: NaN") eq_refl eq_refl)).
Defined.

(** X8: [DoRequest] makes one attempt.  A descriptor that can be sent is
    sent once and uses up one reply, whatever that reply is: after a
    transport failure or a failure status the replies that follow are still
    there, and the transport failure comes back wrapped as "error making
    HTTP request: ...". *)
Theorem DoRequest_single_attempt {rt : Runtime} {T : Type} (c : Dispatch.Client)
    (req : Dispatch.Request) (result : option (Decoder T)) (w : World)
    (payload : option string) (rp : Reply) (rest : list Reply) :
  Dispatch.marshalBody (Dispatch.Body req) = inr payload ->
  http_NewRequest (Dispatch.Method req) (Dispatch.requestURL c req) = None ->
  replies w = rp :: rest ->
  let w' := snd (Dispatch.DoRequest c req result w) in
  replies w' = rest
  /\ length (sent w') = S (length (sent w))
  /\ clock w' = clock w + Z.of_N (elapsed rp)
  /\ (forall cause, answer rp = inl cause ->
        fst (Dispatch.DoRequest c req result w)
        = inl (Errorf_w "error making HTTP request: " cause)).
Proof.
  intros Hm Hn Hr.
  rewrite (DoRequest_dispatched c req result w payload Hm Hn). cbv zeta.
  rewrite (Do_reply _ w rp rest Hr). cbn [fst snd replies sent clock].
  repeat split.
  - rewrite length_app. cbn. lia.
  - intros cause ->. reflexivity.
Qed.

(** The first reply is a transport failure, the second would be a success. *)
Lemma DoRequest_single_attempt_witness :
  let w := Double.world 0 [mkReply 5 (inl (errorString "connection reset"));
                           Double.reply 200 ""] in
  replies (snd (Dispatch.DoRequest (rt := Double.runtime) (T := unit)
                  (Dispatch.NewClient Double.production)
                  (Dispatch.mkRequest "GET" "/collection/v1_0/account/balance" None ∅ ∅)
                  None w))
  = [Double.reply 200 ""].
Proof.
  intros w.
  exact (proj1 (DoRequest_single_attempt (rt := Double.runtime) (T := unit)
                  (Dispatch.NewClient Double.production)
                  (Dispatch.mkRequest "GET" "/collection/v1_0/account/balance" None ∅ ∅)
                  None w None (mkReply 5 (inl (errorString "connection reset")))
                  [Double.reply 200 ""] eq_refl eq_refl eq_refl)).
Defined.

(** ** Authentication: provisioning and the token request *)

Section MoreAuthFacts.
Import Dispatch Auth.
Context {rt : Runtime} {dec : Decoders}.

(** A [DoRequest] that returns [nil] has sent its request. *)
Lemma DoRequest_nil_sent {T : Type} (c : Client) (req : Request)
    (result : option (Decoder T)) (w w' : World) (v : option T) :
  DoRequest c req result w = (inr v, w') ->
  exists payload,
    marshalBody (Body req) = inr payload
    /\ http_NewRequest (Method req) (requestURL c req) = None
    /\ sent w' = (sent w ++ [httpRequestOf c req payload])%list
    /\ replies w' = tail (replies w)
    /\ uuids w' = uuids w.
Proof.
  intros H.
  destruct (marshalBody (Body req)) as [e|payload] eqn:Hm.
  { destruct (DoRequest_not_dispatched c req result w) as [err Herr];
      [left; now exists e | congruence]. }
  destruct (http_NewRequest (Method req) (requestURL c req)) as [e|] eqn:Hn.
  { destruct (DoRequest_not_dispatched c req result w) as [err Herr];
      [right; now exists e | congruence]. }
  destruct (DoRequest_sends c req result w payload Hm Hn) as (Hs & Hr & Hu).
  rewrite H in Hs, Hr, Hu. now exists payload.
Qed.

(** Whatever it returns, a [DoRequest] only adds to the requests sent, and
    one at most. *)
Lemma DoRequest_adds {T : Type} (c : Client) (req : Request)
    (result : option (Decoder T)) (w : World) :
  exists more, sent (snd (DoRequest c req result w)) = (sent w ++ more)%list
               /\ (length more <= 1)%nat.
Proof.
  destruct (DoRequest c req result w) as [r w'] eqn:H.
  apply DoRequest_world in H as (_ & _ & _ & [-> | (h & Hs & _)]); cbn [snd].
  - exists []. rewrite app_nil_r. split; [reflexivity | cbn; lia].
  - exists [h]. split; [exact Hs | cbn; lia].
Qed.

Lemma CreateAPIUser_adds (s : AuthService) (w : World) :
  exists more, sent (snd (CreateAPIUser s w)) = (sent w ++ more)%list
               /\ (length more <= 1)%nat.
Proof.
  unfold CreateAPIUser.
  destruct (negb _); [exists []; rewrite app_nil_r; split; [reflexivity | cbn; lia]|].
  unfold bind. destruct (NewUUID w) as [id w1] eqn:Hu.
  apply NewUUID_world in Hu as (_ & _ & Hsent).
  destruct (DoRequest_adds (T := unit) (client s)
              (mkRequest "POST" "/v1_0/apiuser"
                 (Some (bodyOfMap {[ "providerCallbackHost" := Cfg.CallbackHost (config s) ]}))
                 (<[ "X-Reference-Id" := id ]>
                    {[ "Ocp-Apim-Subscription-Key" := Cfg.SubscriptionKey (config s) ]}) ∅)
              None w1) as (more & Hmore & Hlen).
  destruct (DoRequest _ _ _ w1) as [[e|v] w2]; cbn [snd] in *;
    exists more; rewrite <- Hsent; now split.
Qed.

Lemma CreateAPIKey_adds (s : AuthService) (apiUserID : string) (w : World) :
  exists more, sent (snd (CreateAPIKey s apiUserID w)) = (sent w ++ more)%list
               /\ (length more <= 1)%nat.
Proof.
  unfold CreateAPIKey.
  destruct (negb _); [exists []; rewrite app_nil_r; split; [reflexivity | cbn; lia]|].
  unfold bind.
  destruct (DoRequest_adds (client s)
              (mkRequest "POST" ("/v1_0/apiuser/" +:+ apiUserID +:+ "/apikey") None
                 {[ "Ocp-Apim-Subscription-Key" := Cfg.SubscriptionKey (config s) ]} ∅)
              (Some decodeAPIKey) w) as (more & Hmore & Hlen).
  destruct (DoRequest _ _ _ w) as [[e|v] w2]; cbn [snd] in *; exists more; now split.
Qed.

Lemma credentials_adds (s : AuthService) (w : World) :
  exists more, sent (snd (credentials s w)) = (sent w ++ more)%list
               /\ (length more <= 2)%nat
               /\ (provisions (config s) = false -> more = []).
Proof.
  unfold credentials. destruct (provisions (config s)).
  - unfold bind, ret.
    destruct (CreateAPIUser_adds s w) as (m1 & H1 & L1).
    destruct (CreateAPIUser s w) as [[e|apiUser] w1]; cbn [snd] in *.
    { exists m1. repeat split; [exact H1 | lia | discriminate]. }
    destruct (CreateAPIKey_adds s apiUser w1) as (m2 & H2 & L2).
    destruct (CreateAPIKey s apiUser w1) as [[e|apiKey] w2]; cbn [snd] in *;
      exists (m1 ++ m2)%list; rewrite H2, H1, <- app_assoc, length_app;
      (repeat split; [lia | discriminate]).
  - exists []. rewrite app_nil_r. repeat split. cbn; lia.
Qed.

(** [fetchToken] leaves the service as it is when it fails, and changes only
    the token and its expiry when it succeeds. *)
Lemma fetchToken_service (s : AuthService) (product : string) (w : World) :
  let out := fst (fetchToken s product w) in
  config (snd out) = config s /\ client (snd out) = client s
  /\ (forall err, fst out = inl err -> snd out = s).
Proof.
  unfold fetchToken, bind, ret, Now.
  destruct (credentials s w) as [[e|[apiUser apiKey]] w1]; [now cbn|].
  destruct (productRoute (config s) product) as [[tokenPath key]|]; [|now cbn].
  destruct (DoRequest _ _ _ w1) as [[e|written] w2]; cbn; [easy|].
  repeat split. discriminate.
Qed.

Lemma fetchToken_adds (s : AuthService) (product : string) (w : World) :
  exists more, sent (snd (fetchToken s product w)) = (sent w ++ more)%list
               /\ (length more <= 3)%nat
               /\ (provisions (config s) = false -> (length more <= 1)%nat).
Proof.
  unfold fetchToken, bind, ret, Now.
  destruct (credentials_adds s w) as (m1 & H1 & L1 & P1).
  destruct (credentials s w) as [[e|[apiUser apiKey]] w1]; cbn [snd] in *.
  { exists m1. repeat split; [exact H1 | lia |]. intros Hp. rewrite (P1 Hp). cbn; lia. }
  destruct (productRoute (config s) product) as [[tokenPath key]|].
  2:{ exists m1. repeat split; [exact H1 | lia |]. intros Hp. rewrite (P1 Hp). cbn; lia. }
  destruct (DoRequest_adds (client s) (tokenRequest tokenPath key apiUser apiKey)
              (Some decodeTokenResponse) w1) as (m2 & H2 & L2).
  destruct (DoRequest _ _ _ w1) as [[e|written] w2]; cbn [snd] in *;
    exists (m1 ++ m2)%list; rewrite H2, H1, <- app_assoc, length_app;
    (repeat split; [lia|]); intros Hp; rewrite (P1 Hp); cbn; lia.
Qed.

End MoreAuthFacts.

(** X9: outside the sandbox nothing is provisioned: [CreateAPIUser] and
    [CreateAPIKey] fail at once with their mode error, draw no identifier
    and send nothing, and [GetAccessToken] does not call them, also when the
    API user or the API key of the configuration is empty. *)
Theorem provisioning_only_in_sandbox {rt : Runtime} {dec : Auth.Decoders}
    (s : Auth.AuthService) (apiUserID : string) (w : World) :
  Cfg.Environment (Auth.config s) <> Cfg.Sandbox ->
  Auth.CreateAPIUser s w
  = (inl (errorString "creating API users is only available in sandbox mode"), w)
  /\ Auth.CreateAPIKey s apiUserID w
     = (inl (errorString "creating API keys is only available in sandbox mode"), w)
  /\ Auth.credentials s w
     = (inr (Cfg.APIUser (Auth.config s), Cfg.APIKey (Auth.config s)), w).
Proof.
  intros Henv. apply String.eqb_neq in Henv.
  unfold Auth.CreateAPIUser, Auth.CreateAPIKey, Auth.credentials, Auth.provisions.
  rewrite Henv. repeat split.
Qed.

Lemma provisioning_only_in_sandbox_witness :
  Auth.CreateAPIUser (rt := Double.runtime) (Double.service Double.production)
    (Double.world 0 [Double.reply 201 ""])
  = (inl (errorString "creating API users is only available in sandbox mode"),
     Double.world 0 [Double.reply 201 ""]).
Proof.
  refine (proj1 (provisioning_only_in_sandbox (rt := Double.runtime)
                   (dec := Double.decoders) (Double.service Double.production) ""
                   (Double.world 0 [Double.reply 201 ""]) _)).
  discriminate.
Defined.

(** X10: a [CreateAPIUser] that succeeds has sent one request, a POST to
    "/v1_0/apiuser" whose X-Reference-Id header is the identifier it
    returns, the one drawn for this call, and whose subscription-key header
    is the subscription key of the configuration. *)
Theorem CreateAPIUser_returns_reference_sent {rt : Runtime} {dec : Auth.Decoders}
    (s : Auth.AuthService) (w w' : World) (apiUserID : string) :
  Auth.CreateAPIUser s w = (inr apiUserID, w') ->
  exists h,
    sent w' = (sent w ++ [h])%list
    /\ HTTPMethod h = "POST"
    /\ URL h = "https://" +:+ Cfg.Host (Dispatch.clientConfig (Auth.client s))
               +:+ "/v1_0/apiuser"
    /\ Header h !! "X-Reference-Id" = Some apiUserID
    /\ Header h !! "Ocp-Apim-Subscription-Key"
       = Some (Cfg.SubscriptionKey (Auth.config s))
    /\ apiUserID = fst (NewUUID w)
    /\ uuids w' = tail (uuids w).
Proof.
  unfold Auth.CreateAPIUser.
  destruct (negb _); [discriminate|].
  unfold bind, ret. destruct (NewUUID w) as [id w1] eqn:Hu.
  assert (Hw1 : sent w1 = sent w /\ uuids w1 = tail (uuids w)).
  { unfold NewUUID in Hu. destruct (uuids w) eqn:E; injection Hu as _ <-; cbn;
      [now rewrite E | now split]. }
  destruct Hw1 as [Hsent Huuids].
  destruct (Dispatch.DoRequest _ _ _ w1) as [[e|v] w2] eqn:Hd; [discriminate|].
  intros [= <- <-].
  apply DoRequest_nil_sent in Hd as (payload & _ & _ & Hs & _ & Hu2).
  eexists. split; [rewrite Hs, Hsent; reflexivity|].
  unfold httpRequestOf. cbn.
  split; [reflexivity|]. split; [reflexivity|].
  split; [apply lookup_union_Some_l, lookup_insert_eq|].
  split.
  { apply lookup_union_Some_l. rewrite lookup_insert_ne by discriminate.
    apply lookup_singleton_eq. }
  split; [reflexivity | congruence].
Qed.

Lemma CreateAPIUser_returns_reference_sent_witness :
  let w := mkWorld 0 [Double.reply 201 ""] [] ["id-1"] in
  exists h,
    sent (snd (Auth.CreateAPIUser (rt := Double.runtime) (Double.service Double.sandbox) w))
    = [h]
    /\ Header h !! "X-Reference-Id" = Some "id-1".
Proof.
  intros w.
  destruct (CreateAPIUser_returns_reference_sent (rt := Double.runtime)
              (dec := Double.decoders) (Double.service Double.sandbox) w
              (snd (Auth.CreateAPIUser (rt := Double.runtime)
                      (Double.service Double.sandbox) w))
              "id-1" eq_refl)
    as (h & Hsent & _ & _ & Href & _).
  exists h. split; [exact Hsent | exact Href].
Defined.

(** X11: [GetAccessToken] never changes the configuration or the client of
    the service, and a call that fails leaves the whole service, cached
    token and expiry included, as it was.  In particular the user and key
    created in the sandbox are not kept: a configuration that calls for
    provisioning still does after the call. *)
Theorem GetAccessToken_keeps_service {rt : Runtime} {dec : Auth.Decoders}
    (s : Auth.AuthService) (product : string) (w : World) :
  let out := fst (Auth.GetAccessToken s product w) in
  Auth.config (snd out) = Auth.config s
  /\ Auth.client (snd out) = Auth.client s
  /\ Auth.provisions (Auth.config (snd out)) = Auth.provisions (Auth.config s)
  /\ (forall err, fst out = inl err -> snd out = s).
Proof.
  cbv zeta. destruct (Auth.cacheValid s (clock w)) eqn:Hv.
  - rewrite (GetAccessToken_cached _ _ _ Hv). cbn. repeat split; discriminate.
  - rewrite (GetAccessToken_uncached _ _ _ Hv).
    destruct (fetchToken_service s product w) as (Hc & Hcl & Herr).
    repeat split; try assumption. now rewrite Hc.
Qed.

(** A token request answered with 401 while "C" is cached but expired. *)
Lemma GetAccessToken_keeps_service_witness :
  let s := Auth.mkAuthService (Dispatch.NewClient Double.production) Double.production
             "C" (3540 * Second) in
  let w := Double.world (3600 * Second) [Double.reply 401 "denied"] in
  snd (fst (Auth.GetAccessToken (rt := Double.runtime) (dec := Double.decoders)
              s "collection" w)) = s.
Proof.
  intros s w.
  refine (proj2 (proj2 (proj2 (GetAccessToken_keeps_service (rt := Double.runtime)
                                 (dec := Double.decoders) s "collection" w))) _ _).
  vm_compute. reflexivity.
Defined.

(** X12: a call of [GetAccessToken] only adds to the requests sent, three at
    most (create user, create key, token), and one at most when the
    configuration does not call for provisioning. *)
Theorem GetAccessToken_request_bound {rt : Runtime} {dec : Auth.Decoders}
    (s : Auth.AuthService) (product : string) (w : World) :
  exists more,
    sent (snd (Auth.GetAccessToken s product w)) = (sent w ++ more)%list
    /\ (length more <= 3)%nat
    /\ (Auth.provisions (Auth.config s) = false -> (length more <= 1)%nat).
Proof.
  destruct (Auth.cacheValid s (clock w)) eqn:Hv.
  - rewrite (GetAccessToken_cached _ _ _ Hv). exists []. cbn.
    rewrite app_nil_r. repeat split; lia.
  - rewrite (GetAccessToken_uncached _ _ _ Hv). apply fetchToken_adds.
Qed.

Lemma GetAccessToken_request_bound_witness :
  exists more,
    sent (snd (Auth.GetAccessToken (rt := Double.runtime) (dec := Double.decoders)
                 (Double.service Double.production) "collection"
                 (Double.world 0 [Double.reply 500 ""; Double.reply 200 ""])))
    = more
    /\ (length more <= 1)%nat.
Proof.
  destruct (GetAccessToken_request_bound (rt := Double.runtime) (dec := Double.decoders)
              (Double.service Double.production) "collection"
              (Double.world 0 [Double.reply 500 ""; Double.reply 200 ""]))
    as (more & Hsent & _ & Hone).
  exists more. split; [exact Hsent | apply Hone; reflexivity].
Defined.

(** X13: the token request of a call that fetches a token is a POST
    without body that presents the subscription key for "collection" and
    the disbursement key for "disbursement"; when nothing is provisioned its
    Authorization header is the Basic header made of the API user and key
    of the configuration. *)
Theorem token_request_presents_product_key {rt : Runtime} {dec : Auth.Decoders}
    (s s' : Auth.AuthService) (product tok : string) (w w' : World) :
  Auth.cacheValid s (clock w) = false ->
  Auth.GetAccessToken s product w = ((inr tok, s'), w') ->
  exists h,
    last (sent w') = Some h
    /\ HTTPMethod h = "POST"
    /\ Payload h = None
    /\ (product = "collection" ->
          Header h !! "Ocp-Apim-Subscription-Key"
          = Some (Cfg.SubscriptionKey (Auth.config s)))
    /\ (product = "disbursement" ->
          Header h !! "Ocp-Apim-Subscription-Key"
          = Some (Cfg.DisbursementKey (Auth.config s)))
    /\ (Auth.provisions (Auth.config s) = false ->
          Header h !! "Authorization"
          = Some (Dispatch.CreateBasicAuthHeader (Cfg.APIUser (Auth.config s))
                    (Cfg.APIKey (Auth.config s)))).
Proof.
  intros Hv H. rewrite (GetAccessToken_uncached _ _ _ Hv) in H.
  unfold Auth.fetchToken, bind, ret, Now in H.
  destruct (Auth.credentials s w) as [[e|[apiUser apiKey]] w1] eqn:Hcred; [discriminate|].
  destruct (Auth.productRoute (Auth.config s) product) as [[tokenPath key]|] eqn:Hroute;
    [|discriminate].
  destruct (Dispatch.DoRequest _ _ _ w1) as [[e|written] w2] eqn:Hd; [discriminate|].
  injection H as _ _ <-.
  apply DoRequest_nil_sent in Hd as (payload & Hm & _ & Hs & _).
  injection Hm as <-.
  eexists. split; [rewrite Hs; apply last_snoc|].
  unfold httpRequestOf, Auth.tokenRequest. cbn.
  split; [reflexivity|]. split; [reflexivity|].
  assert (Hkey : ({[ "Authorization" := Dispatch.CreateBasicAuthHeader apiUser apiKey;
                     "Ocp-Apim-Subscription-Key" := key ]}
                  ∪ ({[ "Content-Type" := "application/json" ]} : gmap string string))
                 !! "Ocp-Apim-Subscription-Key" = Some key).
  { apply lookup_union_Some_l. rewrite lookup_insert_ne by discriminate.
    apply lookup_singleton_eq. }
  split; [|split].
  - intros ->. injection Hroute as _ <-. exact Hkey.
  - intros ->. injection Hroute as _ <-. exact Hkey.
  - intros Hp. unfold Auth.credentials in Hcred. rewrite Hp in Hcred.
    injection Hcred as <- <- _.
    apply lookup_union_Some_l, lookup_insert_eq.
Qed.

Lemma token_request_presents_product_key_witness :
  let w := Double.world 0 [Double.reply 200 (Double.tokenDocument "D" 3600)] in
  let run := Auth.GetAccessToken (rt := Double.runtime) (dec := Double.decoders)
               (Double.service Double.production) "disbursement" w in
  exists h, last (sent (snd run)) = Some h
            /\ Header h !! "Ocp-Apim-Subscription-Key" = Some "dis".
Proof.
  intros w run.
  destruct (token_request_presents_product_key (rt := Double.runtime)
              (dec := Double.decoders) (Double.service Double.production)
              (snd (fst run)) "disbursement" "D" w (snd run) eq_refl eq_refl)
    as (h & Hlast & _ & _ & _ & Hdis & _).
  exists h. split; [exact Hlast | now apply Hdis].
Defined.



Section ProvisioningFacts.
Import Dispatch Auth.
Context {rt : Runtime} {dec : Decoders}.

Lemma provisions_sandbox (c : Cfg.Config) :
  provisions c = true -> String.eqb (Cfg.Environment c) Cfg.Sandbox = true.
Proof. unfold provisions. intros H. now apply andb_prop in H as [H _]. Qed.

(** [CreateAPIUser] in the sandbox, when its request can be sent. *)
Lemma CreateAPIUser_dispatched (s : AuthService) (w : World) (payload : string) :
  String.eqb (Cfg.Environment (config s)) Cfg.Sandbox = true ->
  json_Marshal (bodyOfMap {[ "providerCallbackHost" := Cfg.CallbackHost (config s) ]})
    = inr payload ->
  http_NewRequest "POST"
    ("https://" +:+ Cfg.Host (clientConfig (client s)) +:+ "/v1_0/apiuser") = None ->
  let id := fst (NewUUID w) in
  let h := httpRequestOf (client s)
             (mkRequest "POST" "/v1_0/apiuser"
                (Some (bodyOfMap {[ "providerCallbackHost" := Cfg.CallbackHost (config s) ]}))
                (<[ "X-Reference-Id" := id ]>
                   {[ "Ocp-Apim-Subscription-Key" := Cfg.SubscriptionKey (config s) ]}) ∅)
             (Some payload) in
  let sentTo := Do h (snd (NewUUID w)) in
  CreateAPIUser s w =
  (match fst sentTo with
   | inl err =>
       inl (Errorf_w "failed to create API user: "
              (Errorf_w "error making HTTP request: " err))
   | inr resp =>
       if (StatusCode resp <? 200) || (300 <=? StatusCode resp) then
         inl (Errorf_w "failed to create API user: "
                (errorString ("API request failed with status code "
                              +:+ itoa (StatusCode resp) +:+ ": " +:+ RespBody resp)))
       else inr id
   end, snd sentTo).
Proof.
  intros Henv Hm Hn. cbv zeta. unfold CreateAPIUser. rewrite Henv. cbn [negb].
  unfold bind, ret. destruct (NewUUID w) as [id w1]. cbn [fst snd].
  rewrite (DoRequest_dispatched (T := unit) (client s) _ None w1 (Some payload)).
  - cbv zeta. unfold httpRequestOf. cbn [Method Headers QueryParams].
    destruct (Do _ w1) as [[err|resp] w2]; cbn [fst snd]; [reflexivity|].
    now destruct ((StatusCode resp <? 200) || (300 <=? StatusCode resp)).
  - unfold marshalBody. cbn [Body]. now rewrite Hm.
  - exact Hn.
Qed.

End ProvisioningFacts.

(** X15: in a sandbox configuration without API user or key, every call
    that does not find a valid token starts by creating a user, whatever
    the product asked for: the first request it sends is the POST to
    "/v1_0/apiuser" with a fresh identifier as X-Reference-Id. *)
Theorem sandbox_fetch_provisions_first {rt : Runtime} {dec : Auth.Decoders}
    (s : Auth.AuthService) (product : string) (w : World) (payload : string) :
  Auth.provisions (Auth.config s) = true ->
  Auth.cacheValid s (clock w) = false ->
  json_Marshal (bodyOfMap {[ "providerCallbackHost" := Cfg.CallbackHost (Auth.config s) ]})
    = inr payload ->
  http_NewRequest "POST"
    ("https://" +:+ Cfg.Host (Dispatch.clientConfig (Auth.client s)) +:+ "/v1_0/apiuser")
    = None ->
  exists h more,
    sent (snd (Auth.GetAccessToken s product w)) = (sent w ++ h :: more)%list
    /\ HTTPMethod h = "POST"
    /\ URL h = "https://" +:+ Cfg.Host (Dispatch.clientConfig (Auth.client s))
               +:+ "/v1_0/apiuser"
    /\ Header h !! "X-Reference-Id" = Some (fst (NewUUID w))
    /\ Payload h = Some payload.
Proof.
  intros Hp Hv Hm Hn.
  rewrite (GetAccessToken_uncached _ _ _ Hv).
  unfold Auth.fetchToken, Auth.credentials, bind, ret, Now. rewrite Hp.
  rewrite (CreateAPIUser_dispatched s w payload (provisions_sandbox _ Hp) Hm Hn).
  cbv zeta.
  match goal with
  | |- context [Do ?h0 (snd (NewUUID w))] => set (h := h0)
  end.
  assert (Hfirst : sent (snd (Do h (snd (NewUUID w)))) = (sent w ++ [h])%list).
  { unfold Do, NewUUID. destruct (uuids w); cbn; destruct (replies w); reflexivity. }
  exists h.
  assert (Hh : HTTPMethod h = "POST"
               /\ URL h = "https://" +:+ Cfg.Host (Dispatch.clientConfig (Auth.client s))
                          +:+ "/v1_0/apiuser"
               /\ Header h !! "X-Reference-Id" = Some (fst (NewUUID w))
               /\ Payload h = Some payload).
  { subst h. unfold httpRequestOf. cbn [HTTPMethod URL Header Payload].
    repeat apply conj;
      first [reflexivity | apply lookup_union_Some_l, lookup_insert_eq]. }
  destruct (Do h (snd (NewUUID w))) as [r w1]. cbn [fst snd] in *.
  destruct r as [err|resp].
  { exists []. cbn. split; [exact Hfirst | exact Hh]. }
  destruct ((StatusCode resp <? 200) || (300 <=? StatusCode resp)).
  { exists []. cbn. split; [exact Hfirst | exact Hh]. }
  destruct (CreateAPIKey_adds s (fst (NewUUID w)) w1) as (m2 & H2 & _).
  destruct (Auth.CreateAPIKey s (fst (NewUUID w)) w1) as [[e|apiKey] w2]; cbn [snd] in *.
  { exists m2. cbn. rewrite H2, Hfirst, <- app_assoc. split; [reflexivity | exact Hh]. }
  destruct (Auth.productRoute (Auth.config s) product) as [[tokenPath key]|].
  2:{ exists m2. cbn. rewrite H2, Hfirst, <- app_assoc. split; [reflexivity | exact Hh]. }
  destruct (DoRequest_adds (Auth.client s)
              (Auth.tokenRequest tokenPath key (fst (NewUUID w)) apiKey)
              (Some Auth.decodeTokenResponse) w2) as (m3 & H3 & _).
  destruct (Dispatch.DoRequest _ _ _ w2) as [[e|written] w3]; cbn [snd] in *;
    exists (m2 ++ m3)%list; rewrite H3, H2, Hfirst, <- !app_assoc;
    (split; [reflexivity | exact Hh]).
Qed.

Lemma sandbox_fetch_provisions_first_witness :
  let w := mkWorld 0 [Double.reply 201 ""; Double.reply 201 (Double.keyDocument "K");
                      Double.reply 200 (Double.tokenDocument "T" 3600)] [] ["id-1"] in
  exists h more,
    sent (snd (Auth.GetAccessToken (rt := Double.runtime) (dec := Double.decoders)
                 (Double.service Double.sandbox) "collection" w)) = h :: more
    /\ Header h !! "X-Reference-Id" = Some "id-1".
Proof.
  intros w.
  destruct (sandbox_fetch_provisions_first (rt := Double.runtime) (dec := Double.decoders)
              (Double.service Double.sandbox) "collection" w
              (bodyOfMap (Runtime := Double.runtime)
                 {[ "providerCallbackHost" := "cb.example" ]})
              eq_refl eq_refl eq_refl eq_refl)
    as (h & more & Hsent & _ & _ & Href & _).
  exists h, more. split; [exact Hsent | exact Href].
Defined.

(** X16: when the creation of the sandbox user is refused, [GetAccessToken]
    stops there: it returns "failed to create API user: API request failed
    with status code N: body", has sent that one request, asks for no key
    and no token (the replies that follow are still there), and leaves the
    service as it was. *)
Theorem provisioning_failure_stops {rt : Runtime} {dec : Auth.Decoders}
    (s : Auth.AuthService) (product : string) (w : World) (payload : string)
    (rp : Reply) (rest : list Reply) (resp : Response) :
  Auth.provisions (Auth.config s) = true ->
  Auth.cacheValid s (clock w) = false ->
  json_Marshal (bodyOfMap {[ "providerCallbackHost" := Cfg.CallbackHost (Auth.config s) ]})
    = inr payload ->
  http_NewRequest "POST"
    ("https://" +:+ Cfg.Host (Dispatch.clientConfig (Auth.client s)) +:+ "/v1_0/apiuser")
    = None ->
  replies w = rp :: rest ->
  answer rp = inr resp ->
  StatusCode resp < 200 \/ 300 <= StatusCode resp ->
  exists err w',
    Auth.GetAccessToken s product w = ((inl err, s), w')
    /\ Error err = "failed to create API user: API request failed with status code "
                   +:+ itoa (StatusCode resp) +:+ ": " +:+ RespBody resp
    /\ replies w' = rest
    /\ length (sent w') = S (length (sent w)).
Proof.
  intros Hp Hv Hm Hn Hr Ha Hs.
  rewrite (GetAccessToken_uncached _ _ _ Hv).
  unfold Auth.fetchToken, Auth.credentials, bind, ret, Now. rewrite Hp.
  rewrite (CreateAPIUser_dispatched s w payload (provisions_sandbox _ Hp) Hm Hn).
  cbv zeta.
  assert (Hr1 : replies (snd (NewUUID w)) = rp :: rest
                /\ sent (snd (NewUUID w)) = sent w).
  { unfold NewUUID. destruct (uuids w); cbn; now split. }
  destruct Hr1 as [Hr1 Hs1].
  rewrite (Do_reply _ _ rp rest Hr1), Ha. cbn [fst snd].
  assert (Hfail : (StatusCode resp <? 200) || (300 <=? StatusCode resp) = true).
  { apply orb_true_iff. destruct Hs; [left | right]; lia. }
  rewrite Hfail.
  eexists. eexists. split; [reflexivity|].
  split; [reflexivity|]. split; [reflexivity|].
  cbn. rewrite length_app, Hs1. cbn. lia.
Qed.

Lemma provisioning_failure_stops_witness :
  let w := mkWorld 0 [Double.reply 409 "conflict"; Double.reply 201 (Double.keyDocument "K")]
             [] ["id-1"] in
  exists err w',
    Auth.GetAccessToken (rt := Double.runtime) (dec := Double.decoders)
      (Double.service Double.sandbox) "collection" w
    = ((inl err, Double.service Double.sandbox), w')
    /\ replies w' = [Double.reply 201 (Double.keyDocument "K")].
Proof.
  intros w.
  destruct (provisioning_failure_stops (rt := Double.runtime) (dec := Double.decoders)
              (Double.service Double.sandbox) "collection" w
              (bodyOfMap (Runtime := Double.runtime)
                 {[ "providerCallbackHost" := "cb.example" ]})
              (Double.reply 409 "conflict") [Double.reply 201 (Double.keyDocument "K")]
              (mkResponse 409 "conflict")
              eq_refl eq_refl eq_refl eq_refl eq_refl eq_refl)
    as (err & w' & H & _ & Hrest & _); [right; cbn; lia|].
  exists err, w'. split; [exact H | exact Hrest].
Defined.

(** ** The services: transactions and queries *)

Section MoreServiceFacts.
Import Dispatch Auth Models Services.
Context {rt : Runtime} {dec : Decoders} {srt : ServiceRuntime}.

Lemma transactionHeaders_lookup (token referenceID targetEnvironment key idem : string) :
  let headers := transactionHeaders token referenceID targetEnvironment key idem in
  headers !! "Authorization" = Some ("Bearer " +:+ token)
  /\ headers !! "X-Reference-Id" = Some referenceID
  /\ headers !! "X-Target-Environment" = Some targetEnvironment
  /\ headers !! "Ocp-Apim-Subscription-Key" = Some key
  /\ headers !! "X-Idempotency-Key" = (if isEmpty idem then None else Some idem).
Proof.
  unfold transactionHeaders. destruct (isEmpty idem); cbn [negb];
    repeat apply conj; reflexivity.
Qed.

Lemma orNewUUID_world (given id : string) (w w' : World) :
  orNewUUID given w = (id, w') ->
  sent w' = sent w /\ replies w' = replies w /\ clock w' = clock w
  /\ (isEmpty given = false -> id = given /\ w' = w).
Proof.
  unfold orNewUUID. destruct (isEmpty given).
  - intros H. apply NewUUID_world in H as (Hr & Hc & Hs).
    split; [exact Hs|]. split; [exact Hr|]. split; [exact Hc | discriminate].
  - intros [= <- <-]. repeat split.
Qed.

End MoreServiceFacts.

(** X17: with a valid token in the cache, [Transfer] asks for no token: it
    sends its one request, to "/disbursement/v1_0/transfer", with the
    cached token as Bearer and the disbursement key, whichever product that
    token was fetched for, and leaves the authentication service as it is. *)
Theorem Transfer_uses_cached_token {rt : Runtime} {dec : Auth.Decoders}
    {srt : Services.ServiceRuntime} (s : Services.DisbursementService)
    (auth : Auth.AuthService) (phone : string) (amount : Services.float64)
    (opts : option Services.Options) (w : World) :
  Auth.cacheValid auth (clock w) = true ->
  (forall p, exists text, json_Marshal (Services.bodyOfTransfer p) = inr text) ->
  http_NewRequest "POST"
    ("https://" +:+ Cfg.Host (Dispatch.clientConfig (Services.disClient s))
     +:+ "/disbursement/v1_0/transfer") = None ->
  exists h,
    sent (snd (Services.Transfer s auth phone amount opts w)) = (sent w ++ [h])%list
    /\ URL h = "https://" +:+ Cfg.Host (Dispatch.clientConfig (Services.disClient s))
               +:+ "/disbursement/v1_0/transfer"
    /\ Header h !! "Authorization" = Some ("Bearer " +:+ Auth.accessToken auth)
    /\ Header h !! "Ocp-Apim-Subscription-Key"
       = Some (Cfg.DisbursementKey (Services.disConfig s))
    /\ snd (fst (Services.Transfer s auth phone amount opts w)) = auth.
Proof.
  intros Hv Hm Hn. unfold Services.Transfer, bind, ret.
  rewrite (GetAccessToken_cached _ _ _ Hv). cbv beta iota zeta.
  destruct (Services.orNewUUID _ w) as [referenceID w2] eqn:H2.
  destruct (Services.orNewUUID _ w2) as [externalID w3] eqn:H3.
  apply orNewUUID_world in H2 as (Hs2 & _). apply orNewUUID_world in H3 as (Hs3 & _).
  match goal with
  | |- context [Dispatch.DoRequest ?c ?req ?res w3] =>
      set (request := req);
      match req with
      | Dispatch.mkRequest _ _ (Some (Services.bodyOfTransfer ?p)) _ _ =>
          destruct (Hm p) as [text Htext]
      end;
      destruct (DoRequest_sends c request res w3 (Some text)) as (Hsent & _ & _);
        [unfold Dispatch.marshalBody; subst request; cbn [Dispatch.Body]; now rewrite Htext
        | exact Hn |]
  end.
  exists (httpRequestOf (Services.disClient s) request (Some text)).
  destruct (Dispatch.DoRequest _ request None w3) as [[e|v] w4]; cbn [fst snd] in *;
    (split; [rewrite Hsent, Hs3, Hs2; reflexivity|]);
    (split; [reflexivity|]);
    subst request; unfold httpRequestOf; cbn [Header Dispatch.Headers];
    destruct (transactionHeaders_lookup (Auth.accessToken auth) referenceID
                (Cfg.TargetEnvironment (Services.disConfig s))
                (Cfg.DisbursementKey (Services.disConfig s))
                (Services.IdempotencyKey (default Services.zeroOptions opts)))
      as (Hauth & _ & _ & Hkey & _);
    (split; [now apply lookup_union_Some_l|]);
    (split; [now apply lookup_union_Some_l | reflexivity]).
Qed.

(** A token fetched for "collection" is in the cache when [Transfer] is
    called. *)
Lemma Transfer_uses_cached_token_witness :
  let auth := Auth.mkAuthService (Dispatch.NewClient Double.production) Double.production
                "C" (3540 * Second) in
  let s := Services.mkDisbursementService (Dispatch.NewClient Double.production)
             Double.production in
  exists h,
    sent (snd (Services.Transfer (rt := Double.runtime) (dec := Double.decoders)
                 (srt := Double.services) s auth "0733123454" 10 None
                 (Double.world 0 [Double.reply 202 ""]))) = [h]
    /\ Header h !! "Authorization" = Some "Bearer C".
Proof.
  intros auth s.
  destruct (Transfer_uses_cached_token (rt := Double.runtime) (dec := Double.decoders)
              (srt := Double.services) s auth "0733123454" 10 None
              (Double.world 0 [Double.reply 202 ""]) eq_refl
              (fun p => ex_intro _ _ eq_refl) eq_refl)
    as (h & Hsent & _ & Hauth & _).
  exists h. split; [exact Hsent | exact Hauth].
Defined.

(** X18: the reference [RequestToPay] returns is the one it has sent: the
    last request sent by a call that succeeds is a POST whose
    X-Reference-Id header is the returned reference, which is the caller's
    own when the options give one; the X-Idempotency-Key header is there
    exactly when the options give a key. *)
Theorem RequestToPay_returns_reference_sent {rt : Runtime} {dec : Auth.Decoders}
    {srt : Services.ServiceRuntime} (s : Services.CollectionService)
    (auth auth' : Auth.AuthService) (phone referenceID : string)
    (amount : Services.float64) (opts : option Services.Options) (w w' : World) :
  Services.RequestToPay s auth phone amount opts w = ((inr referenceID, auth'), w') ->
  let o := default Services.zeroOptions opts in
  exists h,
    last (sent w') = Some h
    /\ HTTPMethod h = "POST"
    /\ Header h !! "X-Reference-Id" = Some referenceID
    /\ Header h !! "X-Idempotency-Key"
       = (if isEmpty (Services.IdempotencyKey o) then None
          else Some (Services.IdempotencyKey o))
    /\ (Services.ReferenceID o <> "" -> referenceID = Services.ReferenceID o).
Proof.
  unfold Services.RequestToPay, bind, ret. cbv zeta.
  destruct (Auth.GetAccessToken auth "collection" w) as [[[err|token] a1] w1];
    [discriminate|].
  destruct (Services.orNewUUID _ w1) as [ref w2] eqn:H2.
  destruct (Services.orNewUUID _ w2) as [ext w3] eqn:H3.
  destruct (Dispatch.DoRequest _ _ _ w3) as [[e|v] w4] eqn:Hd; [discriminate|].
  intros [= <- <- <-].
  apply DoRequest_nil_sent in Hd as (payload & _ & _ & Hs & _).
  eexists. split; [rewrite Hs; apply last_snoc|].
  unfold httpRequestOf. cbn [HTTPMethod Header Dispatch.Method Dispatch.Headers].
  destruct (transactionHeaders_lookup token ref
              (Cfg.TargetEnvironment (Services.colConfig s))
              (Cfg.SubscriptionKey (Services.colConfig s))
              (Services.IdempotencyKey (default Services.zeroOptions opts)))
    as (_ & Href & _ & _ & Hidem).
  split; [reflexivity|].
  split; [now apply lookup_union_Some_l|].
  split.
  - rewrite lookup_union_l; [exact Hidem|]. now apply lookup_singleton_ne.
  - intros Hgiven. apply isEmpty_false in Hgiven.
    apply orNewUUID_world in H2 as (_ & _ & _ & Hid). now apply Hid.
Qed.

Lemma RequestToPay_returns_reference_sent_witness :
  let s := Services.mkCollectionService (Dispatch.NewClient Double.production)
             Double.production in
  let opts := Some (Services.mkOptions "" "" "order-7" "" "" "") in
  let w := Double.world 0 [Double.reply 200 (Double.tokenDocument "T" 120);
                           Double.reply 202 ""] in
  let run := Services.RequestToPay (rt := Double.runtime) (dec := Double.decoders)
               (srt := Double.services) s (Double.service Double.production)
               "0733123454" 10 opts w in
  exists h, last (sent (snd run)) = Some h
            /\ Header h !! "X-Reference-Id" = Some "order-7".
Proof.
  intros s opts w run.
  destruct (RequestToPay_returns_reference_sent (rt := Double.runtime)
              (dec := Double.decoders) (srt := Double.services) s
              (Double.service Double.production) (snd (fst run)) "0733123454"
              "order-7" 10 opts w (snd run) eq_refl)
    as (h & Hlast & _ & Href & _).
  exists h. split; [exact Hlast | exact Href].
Defined.





(** X21: with a valid token in the cache, [GetTransactionStatus] sends one
    GET without body to "/collection/v1_0/requesttopay/" followed by the
    reference as given, with the cached token as Bearer.  On an answer with
    a status in [200,300) it returns the decoded record; a body that does
    not decode gives "error checking transaction status: error decoding
    response: ...", and a 204 gives the zero record, whose status is none of
    the five constants, with no error. *)
Theorem GetTransactionStatus_query {rt : Runtime} {dec : Auth.Decoders}
    {qrt : Queries.QueryRuntime} (s : Services.CollectionService)
    (auth : Auth.AuthService) (referenceID : string) (w : World)
    (rp : Reply) (rest : list Reply) (resp : Response) :
  Auth.cacheValid auth (clock w) = true ->
  http_NewRequest "GET"
    ("https://" +:+ Cfg.Host (Dispatch.clientConfig (Services.colClient s))
     +:+ "/collection/v1_0/requesttopay/" +:+ referenceID) = None ->
  replies w = rp :: rest ->
  answer rp = inr resp ->
  200 <= StatusCode resp < 300 ->
  exists h w',
    Queries.GetTransactionStatus s auth referenceID w
    = ((if StatusCode resp =? 204 then inr Queries.zeroStatus
        else match Queries.decodeTransactionStatus (RespBody resp) with
             | inl cause =>
                 inl (Errorf_w "error checking transaction status: "
                        (Errorf_w "error decoding response: " cause))
             | inr record => inr record
             end, auth), w')
    /\ sent w' = (sent w ++ [h])%list
    /\ replies w' = rest
    /\ HTTPMethod h = "GET"
    /\ Payload h = None
    /\ URL h = "https://" +:+ Cfg.Host (Dispatch.clientConfig (Services.colClient s))
               +:+ "/collection/v1_0/requesttopay/" +:+ referenceID
    /\ Header h !! "Authorization" = Some ("Bearer " +:+ Auth.accessToken auth)
    /\ Queries.tsStatus Queries.zeroStatus = "".
Proof.
  intros Hv Hn Hr Ha Hs. unfold Queries.GetTransactionStatus, bind, ret.
  rewrite (GetAccessToken_cached _ _ _ Hv). cbv beta iota zeta.
  match goal with
  | |- context [Dispatch.DoRequest ?c ?req ?res w] =>
      rewrite (DoRequest_dispatched c req res w None eq_refl Hn)
  end.
  cbv zeta. rewrite (Do_reply _ w rp rest Hr), Ha.
  assert (Hok : (StatusCode resp <? 200) || (300 <=? StatusCode resp) = false).
  { apply orb_false_iff. split; lia. }
  rewrite Hok. unfold Dispatch.StatusNoContent.
  eexists. eexists. split.
  { destruct (StatusCode resp =? 204); cbn [negb]; [reflexivity|].
    destruct (Queries.decodeTransactionStatus (RespBody resp)); reflexivity. }
  cbn [sent replies HTTPMethod Payload URL Header].
  repeat apply conj; try reflexivity.
Qed.

Lemma GetTransactionStatus_query_witness :
  let auth := Auth.mkAuthService (Dispatch.NewClient Double.production) Double.production
                "C" (3540 * Second) in
  let s := Services.mkCollectionService (Dispatch.NewClient Double.production)
             Double.production in
  exists h w',
    Queries.GetTransactionStatus (rt := Double.runtime) (dec := Double.decoders)
      (qrt := DoubleQueries.queries) s auth "order-7"
      (Double.world 0 [Double.reply 204 ""])
    = ((inr Queries.zeroStatus, auth), w')
    /\ URL h = "https://proxy.momoapi.mtn.com/collection/v1_0/requesttopay/order-7".
Proof.
  intros auth s.
  destruct (GetTransactionStatus_query (rt := Double.runtime) (dec := Double.decoders)
              (qrt := DoubleQueries.queries) s auth "order-7"
              (Double.world 0 [Double.reply 204 ""])
              (Double.reply 204 "") [] (mkResponse 204 "")
              eq_refl eq_refl eq_refl eq_refl)
    as (h & w' & H & _ & _ & _ & _ & Hurl & _); [cbn; lia|].
  exists h, w'. split; [exact H | exact Hurl].
Defined.



(** ** Idempotency keys *)

Section KeyFacts.
Import Keys.

Lemma append_assoc (a b c : string) : (a +:+ b) +:+ c = a +:+ (b +:+ c).
Proof.
  induction a as [|x a IH]; [reflexivity|].
  change (String x ((a +:+ b) +:+ c) = String x (a +:+ b +:+ c)). now rewrite IH.
Qed.

Lemma Join_snoc (l : list string) (x sep : string) :
  l <> [] -> Join (l ++ [x]) sep = Join l sep +:+ sep +:+ x.
Proof.
  induction l as [|a l IH]; intros Hne; [now destruct Hne|].
  destruct l as [|b l]; [reflexivity|].
  change (Join ((a :: b :: l) ++ [x]) sep)
    with (a +:+ sep +:+ Join ((b :: l) ++ [x]) sep).
  rewrite IH by discriminate.
  change (Join (a :: b :: l) sep) with (a +:+ sep +:+ Join (b :: l) sep).
  now rewrite !append_assoc.
Qed.

Lemma HasPrefix_append (p s : string) : Phone.HasPrefix (p +:+ s) p = true.
Proof.
  induction p as [|c p IH]; [reflexivity|].
  change (Ascii.eqb c c && Phone.HasPrefix (p +:+ s) p = true).
  now rewrite Ascii.eqb_refl, IH.
Qed.

End KeyFacts.

(** X23: [GenerateIdempotencyKey] returns the prefix, the elements and the
    time stamp of the clock joined by "_", so the key begins with the prefix
    and "_"; it reads the clock and changes nothing.  The elements are
    joined as they are: an element "x_y" gives the same key as the two
    elements "x" and "y". *)
Theorem GenerateIdempotencyKey_joins {cal : Keys.Calendar} (prefix : string)
    (uniqueElements : list string) (w : World) :
  Keys.GenerateIdempotencyKey prefix uniqueElements w
  = (Keys.Join (prefix :: uniqueElements) "_" +:+ "_" +:+ Keys.Format_stamp (clock w), w)
  /\ Phone.HasPrefix (fst (Keys.GenerateIdempotencyKey prefix uniqueElements w))
       (prefix +:+ "_") = true
  /\ (forall x y,
        Keys.GenerateIdempotencyKey prefix [x +:+ "_" +:+ y] w
        = Keys.GenerateIdempotencyKey prefix [x; y] w).
Proof.
  assert (Hkey : Keys.GenerateIdempotencyKey prefix uniqueElements w
                 = (Keys.Join (prefix :: uniqueElements) "_" +:+ "_"
                    +:+ Keys.Format_stamp (clock w), w)).
  { unfold Keys.GenerateIdempotencyKey, bind, ret, Now. cbv zeta.
    change ([prefix] ++ uniqueElements)%list with (prefix :: uniqueElements).
    now rewrite Join_snoc by discriminate. }
  split; [exact Hkey|]. split.
  - rewrite Hkey. cbn [fst].
    destruct uniqueElements as [|e es].
    + cbn [Keys.Join]. rewrite <- append_assoc. apply HasPrefix_append.
    + change (Keys.Join (prefix :: e :: es) "_")
        with (prefix +:+ "_" +:+ Keys.Join (e :: es) "_").
      rewrite <- (append_assoc prefix "_"), append_assoc.
      apply HasPrefix_append.
  - intros x y. unfold Keys.GenerateIdempotencyKey, bind, ret, Now. cbv zeta.
    f_equal. cbn [app Keys.Join]. now rewrite !append_assoc.
Qed.

(** ** Phone numbers: spellings *)

Section SpellingFacts.
Import Phone.

(** On a string of digits [formatPhoneNumber] goes by the string itself. *)
Lemma formatPhoneNumber_digits (d : string) :
  allDigits d = true ->
  formatPhoneNumber d =
  match d with
  | String "0" tail => countryCode +:+ tail
  | _ => if negb (HasPrefix d countryCode) then countryCode +:+ d else d
  end.
Proof.
  intros Hd. unfold formatPhoneNumber.
  now rewrite strings_Map_digits, (keepDigits_fixed _ Hd).
Qed.

Lemma allDigits_append (a b : string) :
  allDigits a = true -> allDigits b = true -> allDigits (a +:+ b) = true.
Proof.
  induction a as [|c a IH]; intros Ha Hb; [exact Hb|].
  cbn [allDigits] in Ha. apply andb_prop in Ha as [Hc Ha].
  change (isDigit c && allDigits (a +:+ b) = true).
  now rewrite Hc, IH.
Qed.

End SpellingFacts.

(** X24: the spellings of one subscriber number agree.  [formatPhoneNumber]
    does not look at anything but the digits of its input, and for digits
    [d]: with the trunk prefix, "0" + d, and with the country code,
    "231" + d, the result is "231" + d; so is it for [d] alone when [d]
    starts neither with "0" nor with "231". *)
Theorem formatPhoneNumber_spellings (d : string) :
  Phone.allDigits d = true ->
  Phone.formatPhoneNumber ("0" +:+ d) = "231" +:+ d
  /\ Phone.formatPhoneNumber ("231" +:+ d) = "231" +:+ d
  /\ (Phone.HasPrefix d "0" = false -> Phone.HasPrefix d "231" = false ->
        Phone.formatPhoneNumber d = "231" +:+ d)
  /\ (forall phone,
        Phone.formatPhoneNumber phone = Phone.formatPhoneNumber (Phone.keepDigits phone)).
Proof.
  intros Hd. split; [|split; [|split]].
  - rewrite formatPhoneNumber_digits; [reflexivity|].
    now apply (allDigits_append "0" d).
  - rewrite formatPhoneNumber_digits by now apply (allDigits_append "231" d).
    change ("231" +:+ d) with (String "2" (String "3" (String "1" d))).
    cbn [Phone.HasPrefix Phone.countryCode]. reflexivity.
  - intros H0 H231. rewrite (formatPhoneNumber_digits d Hd).
    destruct d as [|c t]; [reflexivity|].
    assert (Hother : (if negb (Phone.HasPrefix (String c t) Phone.countryCode)
                      then Phone.countryCode +:+ String c t else String c t)
                     = "231" +:+ String c t).
    { unfold Phone.countryCode. now rewrite H231. }
    destruct c as [[] [] [] [] [] [] [] []]; first [exact Hother | discriminate H0].
  - intros phone. unfold Phone.formatPhoneNumber.
    rewrite !strings_Map_digits.
    now rewrite (keepDigits_fixed _ (keepDigits_allDigits phone)).
Qed.

Lemma formatPhoneNumber_spellings_witness :
  Phone.formatPhoneNumber "0733123454" = Phone.formatPhoneNumber "231733123454".
Proof.
  destruct (formatPhoneNumber_spellings "733123454" eq_refl) as (H0 & H231 & _).
  exact (eq_trans H0 (eq_sym H231)).
Defined.

(** X25: two spellings [formatPhoneNumber] does not bring together.  A
    national number that itself begins with 231 is taken to carry the
    country code when written without the trunk prefix, so "0" + n and n
    give different results; and of the international call prefix "00" only
    one zero is replaced, which leaves a "0" behind the country code. *)
Theorem formatPhoneNumber_unrecognised_spellings (d : string) :
  Phone.allDigits d = true ->
  Phone.formatPhoneNumber ("231" +:+ d) = "231" +:+ d
  /\ Phone.formatPhoneNumber ("0231" +:+ d) = "231231" +:+ d
  /\ Phone.formatPhoneNumber ("0231" +:+ d) <> Phone.formatPhoneNumber ("231" +:+ d)
  /\ Phone.formatPhoneNumber ("00231" +:+ d) = "2310231" +:+ d.
Proof.
  intros Hd.
  assert (H1 : Phone.formatPhoneNumber ("231" +:+ d) = "231" +:+ d).
  { rewrite formatPhoneNumber_digits by now apply (allDigits_append "231" d).
    change ("231" +:+ d) with (String "2" (String "3" (String "1" d))).
    cbn [Phone.HasPrefix Phone.countryCode]. reflexivity. }
  assert (H2 : Phone.formatPhoneNumber ("0231" +:+ d) = "231231" +:+ d).
  { rewrite formatPhoneNumber_digits; [reflexivity|].
    now apply (allDigits_append "0231" d). }
  split; [exact H1|]. split; [exact H2|]. split.
  - rewrite H1, H2. intros Heq.
    apply (f_equal String.length) in Heq.
    change ("231231" +:+ d) with (String "2" (String "3" (String "1" ("231" +:+ d)))) in Heq.
    cbn [String.length] in Heq. lia.
  - rewrite formatPhoneNumber_digits; [reflexivity|].
    now apply (allDigits_append "00231" d).
Qed.

Lemma formatPhoneNumber_unrecognised_spellings_witness :
  Phone.formatPhoneNumber "00231733123454" = "2310231733123454".
Proof.
  exact (proj2 (proj2 (proj2 (formatPhoneNumber_unrecognised_spellings "733123454" eq_refl)))).
Defined.

(** ** [NewConfig]: when it succeeds *)

(** X26: [NewConfig] succeeds exactly when, after the defaults and the
    options, the subscription key, the target environment, the host and the
    currency are set, and, in production, the API user or the API key is.
    For an environment that is neither the sandbox nor production no
    credentials are asked for. *)
Theorem NewConfig_succeeds_iff (environment : Cfg.EnvironmentType)
    (opts : list Cfg.ConfigOption) :
  let c0 := Cfg.applyOptions opts (Cfg.defaults environment) in
  (exists c, Cfg.NewConfig environment opts = (Some c, None))
  <-> (Cfg.SubscriptionKey c0 <> "" /\ Cfg.TargetEnvironment c0 <> ""
       /\ Cfg.Host c0 <> "" /\ Cfg.Currency c0 <> ""
       /\ (Cfg.Environment c0 = Cfg.Production ->
             Cfg.APIUser c0 <> "" \/ Cfg.APIKey c0 <> "")).
Proof.
  cbv zeta. unfold Cfg.NewConfig.
  set (c0 := Cfg.applyOptions opts (Cfg.defaults environment)).
  split.
  - intros [c H].
    destruct (Cfg.Validate c0) as [c' [err|]] eqn:E; [discriminate|].
    apply Validate_ok in E as (Hs & Ht & Hh & Hp & _ & Hc).
    apply isEmpty_false in Hs, Ht, Hh, Hc.
    repeat split; try assumption.
    intros Hprod. rewrite Hprod in Hp.
    change (String.eqb Cfg.Production Cfg.Production) with true in Hp.
    cbn [andb] in Hp.
    destruct (isEmpty (Cfg.APIUser c0)) eqn:Hu; [|left; now apply isEmpty_false].
    right. now apply isEmpty_false.
  - intros (Hs & Ht & Hh & Hc & Hp).
    apply isEmpty_false in Hs, Ht, Hh, Hc.
    assert (Hcred : String.eqb (Cfg.Environment c0) Cfg.Production
                    && isEmpty (Cfg.APIUser c0) && isEmpty (Cfg.APIKey c0) = false).
    { destruct (String.eqb (Cfg.Environment c0) Cfg.Production) eqn:He; [|reflexivity].
      apply String.eqb_eq in He. destruct (Hp He) as [Hu|Hk].
      - apply isEmpty_false in Hu. now rewrite Hu.
      - apply isEmpty_false in Hk. rewrite Hk. now rewrite andb_false_r. }
    unfold Cfg.Validate. rewrite Hs, Ht, Hh, Hcred.
    destruct (isEmpty (Cfg.DisbursementKey c0)).
    + destruct c0 as [sk dk te cb au ak en cu ho]. cbn in Hc |- *. rewrite Hc.
      eexists. reflexivity.
    + rewrite Hc. eexists. reflexivity.
Qed.

(** An environment called "staging": no defaults but the currency, and no
    credentials asked for. *)
Lemma NewConfig_succeeds_iff_witness :
  exists c,
    Cfg.NewConfig "staging"
      [Cfg.WithSubscriptionKey "sub"; Cfg.WithTargetEnvironment "staging";
       Cfg.WithHost "staging.example"] = (Some c, None).
Proof.
  apply (proj2 (NewConfig_succeeds_iff "staging"
                  [Cfg.WithSubscriptionKey "sub"; Cfg.WithTargetEnvironment "staging";
                   Cfg.WithHost "staging.example"])).
  repeat split; discriminate.
Defined.

(** ** The sandbox flow from end to end *)


